(** * CoPilot API: the reply generator and the session/chat handlers

    A shallow embedding of [main.py]: the template reply generator
    [_generate_assistant_reply], the four session handlers
    [create_session], [list_messages], [chat] and [get_preview], and the
    diagnostic route [test_database], over an in-memory model of the
    document store.

    Scope of the model.
    - A Python [str] is a list of Unicode code points.  Whitespace is
      Python's [str.isspace] on every code point.  Case conversion is
      Python's on the code points up to U+00FF; from U+0100 on it is what the
      interpreter's Unicode database says, which the model takes as given
      ([UnicodeData]).
    - The store is connected and accepts every write; a failure of the
      backing store is not part of the model.
    - The identifiers the store hands out and the readings of the wall clock
      are inputs of the model (an environment), not computed by it. *)

From Stdlib Require Import List NArith ZArith Lia Bool Arith.
From Stdlib Require Import Strings.Byte.
Import ListNotations.
Local Open Scope list_scope.
Local Open Scope nat_scope.

(** ** Python strings *)

(** A [str]: its code points, in order. *)
Definition pystr : Type := list N.

(** A string literal of this file stands for the code points its UTF-8
    bytes encode. *)
Inductive literal : Set :=
| LitEnd
| LitChar (c : N) (rest : literal).

Definition continuation (b : byte) : N := N.land (Byte.to_N b) 63.

Fixpoint utf8_decode (bs : list byte) : literal :=
  match bs with
  | [] => LitEnd
  | b1 :: r1 =>
      let n1 := Byte.to_N b1 in
      if (n1 <? 128)%N then LitChar n1 (utf8_decode r1)
      else
        match r1 with
        | [] => LitChar n1 LitEnd
        | b2 :: r2 =>
            if (n1 <? 224)%N
            then LitChar (N.land n1 31 * 64 + continuation b2) (utf8_decode r2)
            else
              match r2 with
              | [] => LitChar n1 LitEnd
              | b3 :: r3 =>
                  if (n1 <? 240)%N
                  then LitChar (N.land n1 15 * 4096 + continuation b2 * 64
                                + continuation b3) (utf8_decode r3)
                  else
                    match r3 with
                    | [] => LitChar n1 LitEnd
                    | b4 :: r4 =>
                        LitChar (N.land n1 7 * 262144 + continuation b2 * 4096
                                 + continuation b3 * 64 + continuation b4)
                                (utf8_decode r4)
                    end
              end
        end
  end.

Definition byte_of (n : N) : byte :=
  match Byte.of_N n with Some b => b | None => Byte.x00 end.

Fixpoint utf8_encode (l : literal) : list byte :=
  match l with
  | LitEnd => []
  | LitChar c r =>
      (if (c <? 128)%N then [byte_of c]
       else if (c <? 2048)%N
            then [byte_of (192 + c / 64); byte_of (128 + c mod 64)]
            else if (c <? 65536)%N
                 then [byte_of (224 + c / 4096); byte_of (128 + (c / 64) mod 64);
                       byte_of (128 + c mod 64)]
                 else [byte_of (240 + c / 262144); byte_of (128 + (c / 4096) mod 64);
                       byte_of (128 + (c / 64) mod 64); byte_of (128 + c mod 64)])%N
      ++ utf8_encode r
  end.

Declare Scope pystr_scope.
Delimit Scope pystr_scope with py.
#[warnings="-via-type-remapping,-via-type-mismatch"]
String Notation pystr utf8_decode utf8_encode
  (via literal mapping [[nil] => LitEnd, [cons] => LitChar]) : pystr_scope.
Local Open Scope pystr_scope.

(** Equality and prefix tests on strings. *)
Module Str.

Fixpoint eqb (a b : pystr) : bool :=
  match a, b with
  | [], [] => true
  | x :: a', y :: b' => (x =? y)%N && eqb a' b'
  | _, _ => false
  end.

(** [b.startswith(a)] *)
Fixpoint prefix (a b : pystr) : bool :=
  match a with
  | [] => true
  | x :: a' =>
      match b with
      | [] => false
      | y :: b' => (x =? y)%N && prefix a' b'
      end
  end.

End Str.

Infix "=?" := Str.eqb (at level 70) : pystr_scope.
Local Open Scope nat_scope.

(** The case mappings of the interpreter's Unicode database from U+0100 on:
    the title-case mapping of a code point (one or more code points), and
    the lower-case mapping of the code point at an index of a string (which
    for U+03A3 depends on its neighbours). *)
Record UnicodeData : Type := mkUnicodeData
  { title_beyond : N -> pystr;
    lower_beyond : pystr -> nat -> pystr }.

Module PyStr.

(** [str.isspace] on one code point, as [strip] and [split] test it. *)
Definition isspace (c : N) : bool :=
  (((9 <=? c) && (c <=? 13)) || ((28 <=? c) && (c <=? 32))
   || (c =? 133) || (c =? 160) || (c =? 5760)
   || ((8192 <=? c) && (c <=? 8202))
   || (c =? 8232) || (c =? 8233) || (c =? 8239) || (c =? 8287)
   || (c =? 12288))%N.

(** The title-case mapping of a code point up to U+00FF: the small letters
    to their capitals, U+00B5 to U+039C, U+00DF to "Ss", U+00FF to U+0178. *)
Definition latin1_title (c : N) : pystr :=
  (if ((97 <=? c) && (c <=? 122)) || ((224 <=? c) && (c <=? 246))
      || ((248 <=? c) && (c <=? 254))
   then [c - 32]
   else if c =? 181 then [924]
   else if c =? 223 then [83; 115]
   else if c =? 255 then [376]
   else [c])%N.

(** The lower-case mapping of a code point up to U+00FF. *)
Definition latin1_lower (c : N) : N :=
  (if ((65 <=? c) && (c <=? 90)) || ((192 <=? c) && (c <=? 214))
      || ((216 <=? c) && (c <=? 222))
   then c + 32
   else c)%N.

Definition title_full (U : UnicodeData) (c : N) : pystr :=
  if (c <? 256)%N then latin1_title c else title_beyond U c.

(** The lower-case mapping of [c], the code point at index [i] of [s]. *)
Definition lower_at (U : UnicodeData) (s : pystr) (i : nat) (c : N) : pystr :=
  if (c <? 256)%N then [latin1_lower c] else lower_beyond U s i.

(** The code points [rest] of [s] from index [i] on, each in lower case. *)
Fixpoint lower_from (U : UnicodeData) (s : pystr) (i : nat) (rest : pystr) : pystr :=
  match rest with
  | [] => []
  | c :: r => lower_at U s i c ++ lower_from U s (S i) r
  end.

(** [s.capitalize()]: the first code point in title case, the others in
    lower case. *)
Definition capitalize (U : UnicodeData) (s : pystr) : pystr :=
  match s with
  | [] => []
  | c :: r => title_full U c ++ lower_from U s 1 r
  end.

Fixpoint lstrip (s : pystr) : pystr :=
  match s with
  | [] => []
  | c :: r => if isspace c then lstrip r else s
  end.

Fixpoint rstrip (s : pystr) : pystr :=
  match s with
  | [] => []
  | c :: r =>
      match rstrip r with
      | [] => if isspace c then [] else [c]
      | r' => c :: r'
      end
  end.

(** [s.strip()] *)
Definition strip (s : pystr) : pystr := rstrip (lstrip s).

(** [s.split()] with no argument: the maximal runs of non-whitespace
    code points, in order.  [cur] is the token being read. *)
Fixpoint split_from (cur s : pystr) : list pystr :=
  match s with
  | [] => match cur with [] => [] | _ => [cur] end
  | c :: r =>
      if isspace c
      then match cur with
           | [] => split_from [] r
           | _ => cur :: split_from [] r
           end
      else split_from (cur ++ [c]) r
  end.

Definition split (s : pystr) : list pystr := split_from [] s.

(** [s[:n]] *)
Fixpoint slice_to (n : nat) (s : pystr) : pystr :=
  match n, s with
  | S n', c :: r => c :: slice_to n' r
  | _, _ => []
  end.

(** Truth value of a string: non-empty. *)
Definition nonempty (s : pystr) : bool :=
  match s with [] => false | _ => true end.

Fixpoint all_space (s : pystr) : bool :=
  match s with
  | [] => true
  | c :: r => isspace c && all_space r
  end.

Fixpoint no_space (s : pystr) : bool :=
  match s with
  | [] => true
  | c :: r => negb (isspace c) && no_space r
  end.

(** The string is empty or begins with a whitespace character. *)
Definition starts_blank (s : pystr) : bool :=
  match s with
  | [] => true
  | c :: _ => isspace c
  end.


(** [needle in s] *)
Fixpoint contains (needle s : pystr) : bool :=
  Str.prefix needle s ||
  match s with
  | [] => false
  | _ :: r => contains needle r
  end.

(** Every code point of the string is an ASCII one. *)
Definition is_ascii (s : pystr) : bool := forallb (fun c => (c <? 128)%N) s.

(** Every code point of the string is at most U+00FF. *)
Definition is_latin1 (s : pystr) : bool := forallb (fun c => (c <? 256)%N) s.

End PyStr.

(** ** Python values and exceptions *)

(** The JSON-like values the handlers build: [None], integers, strings,
    lists and dictionaries (as association lists in insertion order). *)
#[warnings="-register-all"]
Inductive pyval : Type :=
| PNone
| PInt (n : Z)
| PStr (s : pystr)
| PList (xs : list pyval)
| PDict (kv : list (pystr * pyval)).

(** Truth value of a Python object, as [if x:] tests it. *)
Definition truthy (v : pyval) : bool :=
  match v with
  | PNone => false
  | PInt n => negb (n =? 0)%Z
  | PStr s => PyStr.nonempty s
  | PList xs => match xs with [] => false | _ => true end
  | PDict kv => match kv with [] => false | _ => true end
  end.

(** [d.get(k)] on a dictionary. *)
Fixpoint dict_get (kv : list (pystr * pyval)) (k : pystr) : option pyval :=
  match kv with
  | [] => None
  | (k', v) :: r => if (k' =? k)%py then Some v else dict_get r k
  end.

Inductive exn : Type :=
| IndexError
| InvalidId
| HTTPException (status_code : Z) (detail : pystr).

Definition Result (A : Type) : Type := (exn + A)%type.

Definition rbind {A B} (c : Result A) (k : A -> Result B) : Result B :=
  match c with
  | inl e => inl e
  | inr a => k a
  end.

Notation "'try' x <- c ; k" := (rbind c (fun x => k))
  (at level 10, x name, c at level 100, k at level 200).

(** [l[i]] for a non-negative index. *)
Definition py_index {A} (l : list A) (i : nat) : Result A :=
  match nth_error l i with
  | Some x => inr x
  | None => inl IndexError
  end.

(** ** The reply generator (main.py, lines 98-150) *)

(** The dictionary [{"text": ..., "preview": ...}] the generator returns;
    [result.get("preview")] is the field [Reply.preview]. *)
Module Reply.
Record t : Type := make { text : pystr; preview : pyval }.
End Reply.

Definition job (title company location : pystr) (score : Z) : pyval :=
  PDict [("title", PStr title); ("company", PStr company);
         ("location", PStr location); ("match", PInt score)].

(** [[w for w in prompt.split() if len(w) > 3][:3]] *)
Definition topics_of (prompt : pystr) : list pystr :=
  firstn 3 (filter (fun w => 3 <? List.length w) (PyStr.split prompt)).

Definition _generate_assistant_reply (U : UnicodeData) (mode prompt : pystr) : Result Reply.t :=
  if (mode =? "resume")%py then
    inr {| Reply.text := "I've drafted a professional summary and key bullet points based on your input. You can ask me to refine tone, quantify impact, or tailor to specific roles.";
           Reply.preview := PDict
             [("type", PStr "resume");
              ("summary", PStr (PyStr.capitalize U (PyStr.strip prompt)
                 ++ " professional with a track record of delivering measurable outcomes."));
              ("sections", PList
                 [PDict [("title", PStr "Highlights");
                         ("items", PList
                            [PStr ("Led initiatives related to " ++ PyStr.slice_to 60 prompt ++ "...");
                             PStr "Improved efficiency by 20% through process optimization";
                             PStr "Collaborated across teams to deliver on-time projects"])]])] |}
  else if (mode =? "interview")%py then
    let topics := topics_of prompt in
    try t0 <- (match topics with
               | [] => inr "a cross-functional team"
               | _ => py_index topics 0
               end);
    try t1 <- (if 1 <? List.length topics then py_index topics 1
               else inr "prioritizing conflicting deadlines");
    try t2 <- (if 2 <? List.length topics then py_index topics 2
               else inr "project");
    let questions :=
      [PStr ("Tell me about a time you worked with " ++ t0 ++ ".");
       PStr ("How would you approach " ++ t1 ++ "?");
       PStr ("Describe a challenging " ++ t2 ++ " and your impact.")] in
    inr {| Reply.text := "Here are tailored practice questions and guidance. Ask me to generate follow-ups or score your answers.";
           Reply.preview := PDict
             [("type", PStr "interview");
              ("questions", PList questions);
              ("tips", PList
                 [PStr "Use STAR format (Situation, Task, Action, Result)";
                  PStr "Quantify impact and highlight collaboration";
                  PStr "Tie answers back to role requirements"])] |}
  else
    try keyword <- (if PyStr.nonempty (PyStr.strip prompt)
                    then py_index (PyStr.split prompt) 0
                    else inr "Role");
    let jobs :=
      [job (PyStr.capitalize U keyword ++ " Specialist") "Acme Corp" "Remote" 92;
       job ("Senior " ++ PyStr.capitalize U keyword) "Nimbus" "NYC, NY" 88;
       job (PyStr.capitalize U keyword ++ " Analyst") "Orbit Labs" "Austin, TX" 83] in
    inr {| Reply.text := "I found a few matching roles. Ask me to tailor your resume or draft outreach messages.";
           Reply.preview := PDict [("type", PStr "jobs"); ("results", PList jobs)] |}.

(** The interview questions as the specification words them: the same three
    templates, with the fallback phrases it lists ("a cross-functional
    team", "prioritizing conflicting deadlines", "a project").  Kept apart
    from the generator to compare the two. *)
Definition spec_interview_questions (prompt : pystr) : list pyval :=
  let topics := topics_of prompt in
  [PStr ("Tell me about a time you worked with "
         ++ nth 0 topics "a cross-functional team" ++ ".");
   PStr ("How would you approach "
         ++ nth 1 topics "prioritizing conflicting deadlines" ++ "?");
   PStr ("Describe a challenging " ++ nth 2 topics "a project" ++ " and your impact.")].

(** ** Identifiers *)

(** A document's [_id]: an ObjectId (written by its hexadecimal digits, in
    lower case, the way [str] prints it) inside the store, a plain string
    once coerced. *)
Inductive id_value : Type :=
| Oid (hex : pystr)
| IdStr (s : pystr).

(** [str(value)] *)
Definition str_id (v : id_value) : pystr :=
  match v with Oid h => h | IdStr s => s end.

(** Equality as the store compares [_id] values: an ObjectId never equals a
    string. *)
Definition id_eqb (a b : id_value) : bool :=
  match a, b with
  | Oid x, Oid y => (x =? y)%py
  | IdStr x, IdStr y => (x =? y)%py
  | _, _ => false
  end.

(** main.py, lines 91-95: [str(value)]; [str] does not raise on an
    identifier, so the [except] branch is never taken. *)
Definition _coerce_oid (value : id_value) : id_value := IdStr (str_id value).

(** What the name [ObjectId] is bound to (main.py, lines 11-14): bson's class
    when the import succeeds, [str] otherwise. *)
Inductive oid_binding : Type := BsonObjectId | StrFallback.

Definition is_hex_digit (c : N) : bool :=
  (((48 <=? c) && (c <=? 57)) || ((65 <=? c) && (c <=? 70))
   || ((97 <=? c) && (c <=? 102)))%N.

Fixpoint all_hex (s : pystr) : bool :=
  match s with
  | [] => true
  | c :: r => is_hex_digit c && all_hex r
  end.

(** 24 hexadecimal digits: the strings that spell a twelve-byte ObjectId. *)
Definition is_hex24 (s : pystr) : bool :=
  (List.length s =? 24) && all_hex s.

(** A hexadecimal digit the way [hex] prints it: in lower case. *)
Definition hex_lower (c : N) : N :=
  (if (65 <=? c) && (c <=? 70) then c + 32 else c)%N.

(** The ASCII whitespace [bytes.fromhex] skips between pairs of digits. *)
Definition ascii_space (c : N) : bool :=
  (((9 <=? c) && (c <=? 13)) || (c =? 32))%N.

(** [bytes.fromhex(s).hex()]: the digits of [s], pair by pair, with the
    whitespace before a pair skipped; [None] where [fromhex] raises
    ValueError (a character that is neither a digit nor whitespace,
    whitespace inside a pair, an odd number of digits). *)
Fixpoint fromhex (s : pystr) : option pystr :=
  match s with
  | [] => Some []
  | c :: r =>
      if ascii_space c then fromhex r
      else
        match r with
        | d :: r' =>
            if is_hex_digit c && is_hex_digit d
            then option_map (fun t => hex_lower c :: hex_lower d :: t) (fromhex r')
            else None
        | [] => None
        end
  end.

(** [str(ObjectId(s))] with bson's class: a string of length 24 that
    [bytes.fromhex] accepts gives the identifier of those bytes (24 digits
    give twelve bytes, blanks among them fewer); on any other string the
    constructor raises [InvalidId], which is [None] here. *)
Definition oid_of_str (s : pystr) : option pystr :=
  if List.length s =? 24 then fromhex s else None.

(** The call [ObjectId(s)]; with the fallback, [str(s)] is [s]. *)
Definition ObjectId (b : oid_binding) (s : pystr) : Result id_value :=
  match b with
  | BsonObjectId =>
      match oid_of_str s with
      | Some h => inr (Oid h)
      | None => inl InvalidId
      end
  | StrFallback => inr (IdStr s)
  end.

(** [hasattr(ObjectId, "__call__")]: a class and [str] are both callable. *)
Definition has_call (b : oid_binding) : bool :=
  match b with BsonObjectId => true | StrFallback => true end.

(** ** Records and documents *)

(** Modelled from the spec: the record shapes of schemas.py (Session,
    Message and Preview of the data model), which is not among the sources. *)
Module SessionSchema.
Record t : Type := make
  { user_id : option pystr; mode : pystr; title : option pystr;
    status : pystr }.
End SessionSchema.

Module MessageSchema.
Record t : Type := make
  { session_id : pystr; role : pystr; content : pystr;
    meta : option (list (pystr * pyval)) }.
End MessageSchema.

Module PreviewSchema.
Record t : Type := make
  { session_id : pystr; mode : pystr; content : pyval }.
End PreviewSchema.

(** A stored document: the serialised record, the store-assigned [_id] and
    the two timestamps. *)
Record Doc (B : Type) : Type := mkDoc
  { _id : id_value; body : B; created_at : Z; updated_at : Z }.
Arguments mkDoc {B}.
Arguments _id {B}.
Arguments body {B}.
Arguments created_at {B}.
Arguments updated_at {B}.

Inductive collection : Type := Csession | Cmessage | Cpreview.

Definition schema (c : collection) : Type :=
  match c with
  | Csession => SessionSchema.t
  | Cmessage => MessageSchema.t
  | Cpreview => PreviewSchema.t
  end.

(** The three collections, each in insertion order. *)
Record Store : Type := mkStore
  { session : list (Doc SessionSchema.t);
    message : list (Doc MessageSchema.t);
    preview : list (Doc PreviewSchema.t) }.

(** [db[c]] *)
Definition coll (db : Store) (c : collection) : list (Doc (schema c)) :=
  match c with
  | Csession => session db
  | Cmessage => message db
  | Cpreview => preview db
  end.

Definition coll_add (db : Store) (c : collection) : Doc (schema c) -> Store :=
  match c with
  | Csession => fun d => mkStore (session db ++ [d]) (message db) (preview db)
  | Cmessage => fun d => mkStore (session db) (message db ++ [d]) (preview db)
  | Cpreview => fun d => mkStore (session db) (message db) (preview db ++ [d])
  end.

(** ** The world: store, identifier supply and clock *)

(** What the handlers do not compute: which name [ObjectId] has, the
    identifier the store gives its n-th insertion, and the n-th reading of
    [datetime.now(timezone.utc)]. *)
Record Env : Type := mkEnv
  { binding : oid_binding; new_oid : nat -> pystr; utcnow : nat -> Z }.

Record World : Type := mkWorld
  { db : Store; oids_issued : nat; clock_reads : nat }.

(** Handlers run in a state-and-exception monad over the world; what was
    written before an exception stays written. *)
Definition M (A : Type) : Type := World -> Result A * World.

Definition ret {A} (a : A) : M A := fun w => (inr a, w).

Definition bind {A B} (c : M A) (k : A -> M B) : M B :=
  fun w => match c w with
           | (inl e, w') => (inl e, w')
           | (inr a, w') => k a w'
           end.

Definition raise {A} (e : exn) : M A := fun w => (inl e, w).

Definition lift {A} (r : Result A) : M A := fun w => (r, w).

Notation "x <- c ;; k" := (bind c (fun x => k))
  (at level 61, c at next level, right associativity).
Notation "c ;; k" := (bind c (fun _ => k))
  (at level 61, right associativity).

Definition by_session_id (sid : pystr) (m : MessageSchema.t) : bool :=
  (MessageSchema.session_id m =? sid)%py.

Definition preview_of_session (sid : pystr) (p : PreviewSchema.t) : bool :=
  (PreviewSchema.session_id p =? sid)%py.

(** [find_one({"_id": q})] on a collection. *)
Definition find_by_id {B} (l : list (Doc B)) (q : id_value) : option (Doc B) :=
  find (fun d => id_eqb (_id d) q) l.

(** The head of a collection sorted by [created_at], descending: among the
    documents with the greatest [created_at], the one inserted first. *)
Fixpoint latest {B} (l : list (Doc B)) : option (Doc B) :=
  match l with
  | [] => None
  | d :: r =>
      match latest r with
      | Some d' => if (created_at d <? created_at d')%Z then Some d' else Some d
      | None => Some d
      end
  end.

Definition set_id {B} (d : Doc B) (i : id_value) : Doc B :=
  mkDoc i (body d) (created_at d) (updated_at d).

(** ** Requests and responses (main.py, lines 73-88) *)

(** [Literal["resume", "interview", "jobs"]]: request validation admits no
    other mode. *)
Inductive Mode : Type := resume | interview | jobs.

Definition mode_name (m : Mode) : pystr :=
  match m with
  | resume => "resume"
  | interview => "interview"
  | jobs => "jobs"
  end.

Module CreateSessionRequest.
Record t : Type := make
  { user_id : option pystr; mode : Mode; title : option pystr }.
End CreateSessionRequest.

Module CreateSessionResponse.
Record t : Type := make { session_id : pystr }.
End CreateSessionResponse.

Module ChatRequest.
Record t : Type := make { content : pystr }.
End ChatRequest.

Module ChatResponse.
Record t : Type := make
  { session_id : pystr; messages : list (Doc MessageSchema.t);
    preview : pyval }.
End ChatResponse.

(** The dictionary [{"session_id": ..., "preview": ...}] of [get_preview]. *)
Module PreviewResponse.
Record t : Type := make { session_id : pystr; preview : pyval }.
End PreviewResponse.

Section Handlers.

Variable U : UnicodeData.
Variable E : Env.

(** [datetime.now(timezone.utc)] *)
Definition now : M Z :=
  fun w => (inr (utcnow E (clock_reads w)),
            mkWorld (db w) (oids_issued w) (S (clock_reads w))).

(** [db[c].insert_one(doc)]: the store assigns the [_id]. *)
Definition insert_one (c : collection) (data : schema c) (t_created t_updated : Z)
  : M id_value :=
  fun w =>
    let i := Oid (new_oid E (oids_issued w)) in
    (inr i,
     mkWorld (coll_add (db w) c (mkDoc i data t_created t_updated))
             (S (oids_issued w)) (clock_reads w)).

(** [db["session"].find_one({"_id": q})] *)
Definition find_one_session (q : id_value) : M (option (Doc SessionSchema.t)) :=
  fun w => (inr (find_by_id (session (db w)) q), w).

(** [db["preview"].find_one({"session_id": sid}, sort=[["created_at", -1]])] *)
Definition find_one_latest_preview (sid : pystr)
  : M (option (Doc PreviewSchema.t)) :=
  fun w => (inr (latest (filter (fun d => preview_of_session sid (body d))
                                (preview (db w)))), w).

(** Modelled from the spec: [create_document] of database.py, which is not
    among the sources.  It serialises the record, stamps [created_at] and
    [updated_at] with the current time, inserts the document into the
    named collection and returns the store-generated identifier as a
    string.  The two failures the spec gives it (the connection was never
    established, the store rejects the write) are outside the model: the
    store here is connected and accepts every write. *)
Definition create_document (c : collection) (data : schema c) : M pystr :=
  t_created <- now ;;
  t_updated <- now ;;
  i <- insert_one c data t_created t_updated ;;
  ret (str_id i).

(** Modelled from the spec: [get_documents] of database.py, which is not
    among the sources.  It returns the matching records of the named
    collection in the store's own order, each with its identifier coerced
    to a plain string, and an empty list when nothing matches. *)
Definition get_documents (c : collection) (flt : schema c -> bool)
  : M (list (Doc (schema c))) :=
  fun w =>
    (inr (map (fun d => set_id d (IdStr (str_id (_id d))))
              (filter (fun d => flt (body d)) (coll (db w) c))), w).

(** main.py, lines 153-169 *)
Definition create_session (payload : CreateSessionRequest.t)
  : M CreateSessionResponse.t :=
  let session :=
    {| SessionSchema.user_id := CreateSessionRequest.user_id payload;
       SessionSchema.mode := mode_name (CreateSessionRequest.mode payload);
       SessionSchema.title := CreateSessionRequest.title payload;
       SessionSchema.status := "active" |} in
  session_id <- create_document Csession session ;;
  create_document Cmessage
    {| MessageSchema.session_id := session_id;
       MessageSchema.role := "system";
       MessageSchema.content :=
         "CoPilot session created for "
         ++ mode_name (CreateSessionRequest.mode payload) ++ " mode.";
       MessageSchema.meta := None |} ;;
  ret {| CreateSessionResponse.session_id := session_id |}.

(** main.py, lines 172-179; the result is the list under ["items"]. *)
Definition list_messages (session_id : pystr) : M (list (Doc MessageSchema.t)) :=
  docs <- get_documents Cmessage (by_session_id session_id) ;;
  ret (map (fun d => set_id d (_coerce_oid (_id d))) docs).

(** main.py, line 185: the session lookup of [chat]. *)
Definition find_session (session_id : pystr)
  : M (option (Doc SessionSchema.t)) :=
  if has_call (binding E)
  then q <- lift (ObjectId (binding E) session_id) ;; find_one_session q
  else find_one_session (IdStr session_id).

(** main.py, lines 182-222.  A session document is a serialised Session
    record, so its ["mode"] is present and the default of
    [sess.get("mode", "resume")] is not taken. *)
Definition chat (session_id : pystr) (payload : ChatRequest.t)
  : M ChatResponse.t :=
  sess <- find_session session_id ;;
  match sess with
  | None => raise (HTTPException 404 "Session not found")
  | Some sess =>
      let mode := SessionSchema.mode (body sess) in
      create_document Cmessage
        {| MessageSchema.session_id := session_id;
           MessageSchema.role := "user";
           MessageSchema.content := ChatRequest.content payload;
           MessageSchema.meta := None |} ;;
      result <- lift (_generate_assistant_reply U mode (ChatRequest.content payload)) ;;
      create_document Cmessage
        {| MessageSchema.session_id := session_id;
           MessageSchema.role := "assistant";
           MessageSchema.content := Reply.text result;
           MessageSchema.meta := Some [("mode", PStr mode)] |} ;;
      (if truthy (Reply.preview result)
       then
         let preview_doc :=
           {| PreviewSchema.session_id := session_id;
              PreviewSchema.mode := mode;
              PreviewSchema.content := Reply.preview result |} in
         t_created <- now ;;
         t_updated <- now ;;
         insert_one Cpreview preview_doc t_created t_updated ;;
         ret tt
       else ret tt) ;;
      msgs <- get_documents Cmessage (by_session_id session_id) ;;
      ret {| ChatResponse.session_id := session_id;
             ChatResponse.messages :=
               map (fun m => set_id m (_coerce_oid (_id m))) msgs;
             ChatResponse.preview := Reply.preview result |}
  end.

(** main.py, lines 225-231 *)
Definition get_preview (session_id : pystr) : M PreviewResponse.t :=
  doc <- find_one_latest_preview session_id ;;
  match doc with
  | None => ret {| PreviewResponse.session_id := session_id;
                   PreviewResponse.preview := PNone |}
  | Some doc =>
      let doc := set_id doc (_coerce_oid (_id doc)) in
      ret {| PreviewResponse.session_id := session_id;
             PreviewResponse.preview := PreviewSchema.content (body doc) |}
  end.

End Handlers.

(** A document as handed back by the handlers: the [_id] as a string. *)
Definition view {B} (d : Doc B) : Doc B := set_id d (IdStr (str_id (_id d))).

(** The stored messages filed under the string [sid], oldest first: the
    answer of the filter [{"session_id": sid}]. *)
Definition session_messages (sid : pystr) (db : Store) : list (Doc MessageSchema.t) :=
  filter (fun d => by_session_id sid (body d)) (message db).

(** The stored previews filed under the string [sid], oldest first. *)
Definition session_previews (sid : pystr) (db : Store) : list (Doc PreviewSchema.t) :=
  filter (fun d => preview_of_session sid (body d)) (preview db).

(** ** Runs of the service *)

Inductive request : Type :=
| CreateSession (payload : CreateSessionRequest.t)
| ListMessages (session_id : pystr)
| Chat (session_id : pystr) (payload : ChatRequest.t)
| GetPreview (session_id : pystr).

(** The world after a request has been served (whether it succeeded or
    raised). *)
Definition serve (U : UnicodeData) (E : Env) (r : request) (w : World) : World :=
  match r with
  | CreateSession p => snd (create_session E p w)
  | ListMessages sid => snd (list_messages sid w)
  | Chat sid p => snd (chat U E sid p w)
  | GetPreview sid => snd (get_preview sid w)
  end.

Definition empty_store : Store := mkStore [] [] [].

(** The worlds a run of requests reaches from an empty store. *)
Inductive reachable (U : UnicodeData) (E : Env) : World -> Prop :=
| reach_start (n k : nat) : reachable U E (mkWorld empty_store n k)
| reach_serve (r : request) (w : World) :
    reachable U E w -> reachable U E (serve U E r w).

(** The string [sid] names the session [s]: it is the session's identifier
    as a string, or a string that [ObjectId] reads as the session's
    ObjectId. *)
Definition resolves_to (sid : pystr) (s : Doc SessionSchema.t) : bool :=
  (sid =? str_id (_id s))%py
  || match _id s with
     | Oid h => match oid_of_str sid with
                | Some h' => (h' =? h)%py
                | None => false
                end
     | IdStr _ => false
     end.

(** A message is owned by a session when its [session_id] names it. *)
Definition owned_by (m : Doc MessageSchema.t) (s : Doc SessionSchema.t) : bool :=
  resolves_to (MessageSchema.session_id (body m)) s.

(** Every stored message belongs to a stored session. *)
Definition consistent (db : Store) : bool :=
  forallb (fun m => existsb (owned_by m) (session db)) (message db).

(** The identifier the store gives next is a lower-case one that names no
    stored session. *)
Definition next_oid_fresh (E : Env) (w : World) : bool :=
  let h := new_oid E (oids_issued w) in
  (map hex_lower h =? h)%py
  && forallb (fun s => negb (resolves_to h s)) (session (db w)).

(** ** Sequences of requests and what they preserve *)

(** The world after serving the requests of [rs] in order. *)
Definition run (U : UnicodeData) (E : Env) (rs : list request) (w : World) : World :=
  fold_left (fun w r => serve U E r w) rs w.

Definition valid_mode (m : pystr) : bool :=
  (m =? "resume")%py || (m =? "interview")%py || (m =? "jobs")%py.

(** [content["type"]] of a preview, when it is a string. *)
Definition preview_type (c : pyval) : option pystr :=
  match c with
  | PDict kv => match dict_get kv "type" with
                | Some (PStr t) => Some t
                | _ => None
                end
  | _ => None
  end.

(** A stored preview agrees with its session: its mode is one of the three,
    its content is of that type, and a stored session that its [session_id]
    names has that mode. *)
Definition preview_sound (db : Store) (pv : Doc PreviewSchema.t) : bool :=
  let m := PreviewSchema.mode (body pv) in
  valid_mode m
  && match preview_type (PreviewSchema.content (body pv)) with
     | Some t => (t =? m)%py
     | None => false
     end
  && existsb (fun s => resolves_to (PreviewSchema.session_id (body pv)) s
                       && (SessionSchema.mode (body s) =? m)%py)
             (session db).

(** The three reply texts of the generator (main.py, lines 102, 124, 144). *)
Definition assistant_texts : list pystr :=
  ["I've drafted a professional summary and key bullet points based on your input. You can ask me to refine tone, quantify impact, or tailor to specific roles.";
   "Here are tailored practice questions and guidance. Ask me to generate follow-ups or score your answers.";
   "I found a few matching roles. Ask me to tailor your resume or draft outreach messages."].

(** The shape of a message the handlers write: a seed message of
    [create_session], or a user or an assistant message of [chat]. *)
Definition message_shape (m : MessageSchema.t) : bool :=
  let has_no_meta := match MessageSchema.meta m with None => true | Some _ => false end in
  if (MessageSchema.role m =? "system")%py then
    has_no_meta
    && existsb (fun md => (MessageSchema.content m =?
                           "CoPilot session created for " ++ mode_name md ++ " mode.")%py)
               [resume; interview; jobs]
  else if (MessageSchema.role m =? "user")%py then has_no_meta
  else
    (MessageSchema.role m =? "assistant")%py
    && existsb (Str.eqb (MessageSchema.content m)) assistant_texts
    && match MessageSchema.meta m with
       | Some [(k, PStr md)] => (k =? "mode")%py && valid_mode md
       | _ => false
       end.

(** What every run from an empty store keeps true of the store. *)
Definition store_sound (db : Store) : bool :=
  forallb (fun s => match _id s with Oid _ => true | IdStr _ => false end
                    && valid_mode (SessionSchema.mode (body s))) (session db)
  && forallb (fun m => message_shape (body m)
                       && existsb (resolves_to (MessageSchema.session_id (body m)))
                                  (session db)) (message db)
  && forallb (preview_sound db) (preview db).

(** Every timestamp of a stored preview is an earlier reading of the clock. *)
Definition previews_stamped (E : Env) (w : World) : Prop :=
  forall pv, In pv (preview (db w)) ->
             exists j, j < clock_reads w /\ created_at pv = utcnow E j.

(** ** The diagnostic route (main.py, lines 37-68) *)

(** The store handle [db] as [test_database] uses it: [getattr(db, "name",
    None)], and [db.list_collection_names()], which returns the names or
    raises an exception with a message. *)
Record DbHandle : Type := mkDbHandle
  { handle_name : option pystr;
    list_collection_names : pystr + list pystr }.

(** The dictionary [test_database] returns. *)
Module TestResponse.
Record t : Type := make
  { backend : pystr; database : pystr;
    database_url : option pystr; database_name : option pystr;
    connection_status : pystr; collections : list pystr }.
End TestResponse.

Definition set_database (r : TestResponse.t) (v : pystr) : TestResponse.t :=
  TestResponse.make (TestResponse.backend r) v (TestResponse.database_url r)
    (TestResponse.database_name r) (TestResponse.connection_status r)
    (TestResponse.collections r).

Definition set_database_url (r : TestResponse.t) (v : pystr) : TestResponse.t :=
  TestResponse.make (TestResponse.backend r) (TestResponse.database r) (Some v)
    (TestResponse.database_name r) (TestResponse.connection_status r)
    (TestResponse.collections r).

Definition set_database_name (r : TestResponse.t) (v : pystr) : TestResponse.t :=
  TestResponse.make (TestResponse.backend r) (TestResponse.database r)
    (TestResponse.database_url r) (Some v) (TestResponse.connection_status r)
    (TestResponse.collections r).

Definition set_connection_status (r : TestResponse.t) (v : pystr) : TestResponse.t :=
  TestResponse.make (TestResponse.backend r) (TestResponse.database r)
    (TestResponse.database_url r) (TestResponse.database_name r) v
    (TestResponse.collections r).

Definition set_collections (r : TestResponse.t) (v : list pystr) : TestResponse.t :=
  TestResponse.make (TestResponse.backend r) (TestResponse.database r)
    (TestResponse.database_url r) (TestResponse.database_name r)
    (TestResponse.connection_status r) v.

(** Truth value of [os.getenv(name)]: set, and not the empty string. *)
Definition env_truthy (getenv : pystr -> option pystr) (name : pystr) : bool :=
  match getenv name with
  | Some v => PyStr.nonempty v
  | None => false
  end.

Definition set_or_not (b : bool) : pystr :=
  if b then "✅ Set" else "❌ Not Set".

(** main.py, lines 37-68.  Nothing in the outer [try] raises outside the
    inner one, so the outer handler (lines 62-63) has no run to model. *)
Definition test_database (handle : option DbHandle)
           (getenv : pystr -> option pystr) : TestResponse.t :=
  let response :=
    {| TestResponse.backend := "✅ Running";
       TestResponse.database := "❌ Not Available";
       TestResponse.database_url := None;
       TestResponse.database_name := None;
       TestResponse.connection_status := "Not Connected";
       TestResponse.collections := [] |} in
  let response :=
    match handle with
    | Some h =>
        let response := set_database response "✅ Available" in
        let response :=
          set_database_url response (set_or_not (env_truthy getenv "DATABASE_URL")) in
        let response :=
          set_database_name response
            (match handle_name h with
             | Some n => if PyStr.nonempty n then n
                         else set_or_not (env_truthy getenv "DATABASE_NAME")
             | None => set_or_not (env_truthy getenv "DATABASE_NAME")
             end) in
        let response := set_connection_status response "Connected" in
        match list_collection_names h with
        | inr names =>
            let response := set_collections response (firstn 10 names) in
            set_database response "✅ Connected & Working"
        | inl e =>
            set_database response
              ("⚠️  Connected but Error: " ++ PyStr.slice_to 50 e)
        end
    | None => set_database response "⚠️  Available but not initialized"
    end in
  let response :=
    set_database_url response (set_or_not (env_truthy getenv "DATABASE_URL")) in
  set_database_name response (set_or_not (env_truthy getenv "DATABASE_NAME")).

(** ** The documents a request writes *)

(** The session and the seed message [create_session] inserts in world [w],
    and the two messages and the preview a [chat] call inserts once it has
    found its session: each takes the next identifier of the store and the
    next readings of the clock. *)
Definition session_written (E : Env) (p : CreateSessionRequest.t) (w : World)
  : Doc SessionSchema.t :=
  mkDoc (Oid (new_oid E (oids_issued w)))
        {| SessionSchema.user_id := CreateSessionRequest.user_id p;
           SessionSchema.mode := mode_name (CreateSessionRequest.mode p);
           SessionSchema.title := CreateSessionRequest.title p;
           SessionSchema.status := "active" |}
        (utcnow E (clock_reads w)) (utcnow E (1 + clock_reads w)).

Definition seed_written (E : Env) (p : CreateSessionRequest.t) (w : World)
  : Doc MessageSchema.t :=
  mkDoc (Oid (new_oid E (1 + oids_issued w)))
        {| MessageSchema.session_id := new_oid E (oids_issued w);
           MessageSchema.role := "system";
           MessageSchema.content :=
             "CoPilot session created for "
             ++ mode_name (CreateSessionRequest.mode p) ++ " mode.";
           MessageSchema.meta := None |}
        (utcnow E (2 + clock_reads w)) (utcnow E (3 + clock_reads w)).

Definition user_written (E : Env) (sid : pystr) (p : ChatRequest.t) (w : World)
  : Doc MessageSchema.t :=
  mkDoc (Oid (new_oid E (oids_issued w)))
        {| MessageSchema.session_id := sid; MessageSchema.role := "user";
           MessageSchema.content := ChatRequest.content p;
           MessageSchema.meta := None |}
        (utcnow E (clock_reads w)) (utcnow E (1 + clock_reads w)).

Definition assistant_written (E : Env) (sid mode : pystr) (reply : Reply.t)
           (w : World) : Doc MessageSchema.t :=
  mkDoc (Oid (new_oid E (1 + oids_issued w)))
        {| MessageSchema.session_id := sid; MessageSchema.role := "assistant";
           MessageSchema.content := Reply.text reply;
           MessageSchema.meta := Some [("mode", PStr mode)] |}
        (utcnow E (2 + clock_reads w)) (utcnow E (3 + clock_reads w)).

Definition preview_written (E : Env) (sid mode : pystr) (reply : Reply.t)
           (w : World) : Doc PreviewSchema.t :=
  mkDoc (Oid (new_oid E (2 + oids_issued w)))
        {| PreviewSchema.session_id := sid; PreviewSchema.mode := mode;
           PreviewSchema.content := Reply.preview reply |}
        (utcnow E (4 + clock_reads w)) (utcnow E (5 + clock_reads w)).

(** ** A sample environment *)

(** Ten distinct well-formed identifiers, and a clock that advances by one
    at each reading; used to run the handlers on concrete requests. *)
Definition sample_oid (n : nat) : pystr :=
  "65f0c0ffee0000000000000" ++ [(48 + N.of_nat (n mod 10))%N].

Definition sample_env : Env :=
  mkEnv BsonObjectId sample_oid (fun n => (1700000000 + Z.of_nat n)%Z).

(** An instance of the Unicode data that leaves the code points from U+0100
    on alone; the sample prompts hold none. *)
Definition sample_unicode : UnicodeData :=
  mkUnicodeData (fun c => [c])
                (fun s i => match nth_error s i with Some c => [c] | None => [] end).

Definition empty_world : World := mkWorld empty_store 0 0.

(** The world after one [create_session] in mode [m] on the empty store,
    and the identifier of that session. *)
Definition sample_world (m : Mode) : World :=
  snd (create_session sample_env
         {| CreateSessionRequest.user_id := None;
            CreateSessionRequest.mode := m;
            CreateSessionRequest.title := None |} empty_world).

Definition sample_sid : pystr := sample_oid 0.

(** The session document [sample_world m] holds. *)
Definition sample_session (m : Mode) : Doc SessionSchema.t :=
  mkDoc (Oid sample_sid)
        {| SessionSchema.user_id := None; SessionSchema.mode := mode_name m;
           SessionSchema.title := None; SessionSchema.status := "active" |}
        1700000000%Z 1700000001%Z.

Definition sample_chat : ChatRequest.t :=
  {| ChatRequest.content := "a be it" |}.

(** * Properties *)

(** ** The model on concrete inputs *)

Example split_example :
  PyStr.split "  a be  it data  " = ["a"; "be"; "it"; "data"].
Proof. reflexivity. Qed.

Example split_unicode_space_example :
  PyStr.split "data　engineer sr" = ["data"; "engineer"; "sr"].
Proof. reflexivity. Qed.

Example strip_capitalize_example (U : UnicodeData) :
  PyStr.capitalize U (PyStr.strip "  senior DATA engineer ") = "Senior data engineer".
Proof. reflexivity. Qed.

Example capitalize_latin1_examples (U : UnicodeData) :
  PyStr.capitalize U "ßeta tester" = "Sseta tester"
  /\ PyStr.capitalize U "éCOLE" = "École"
  /\ PyStr.capitalize U "ÉCOLE" = "École"
  /\ PyStr.capitalize U "ÿes" = "Ÿes"
  /\ PyStr.capitalize U "µm" = "Μm"
  /\ PyStr.capitalize U "42 TEAMS" = "42 teams".
Proof. repeat split; reflexivity. Qed.

Example topics_example :
  topics_of "led the data platform migration at scale" = ["data"; "platform"; "migration"].
Proof. reflexivity. Qed.

Example generate_resume_example (U : UnicodeData) :
  _generate_assistant_reply U "resume" "  senior DATA engineer " =
  inr {| Reply.text := "I've drafted a professional summary and key bullet points based on your input. You can ask me to refine tone, quantify impact, or tailor to specific roles.";
         Reply.preview := PDict
           [("type", PStr "resume");
            ("summary", PStr "Senior data engineer professional with a track record of delivering measurable outcomes.");
            ("sections", PList
               [PDict [("title", PStr "Highlights");
                       ("items", PList
                          [PStr "Led initiatives related to   senior DATA engineer ...";
                           PStr "Improved efficiency by 20% through process optimization";
                           PStr "Collaborated across teams to deliver on-time projects"])]])] |}.
Proof. reflexivity. Qed.

Example generate_resume_latin1_example (U : UnicodeData) :
  option_map (fun r => dict_get (match Reply.preview r with PDict kv => kv | _ => [] end)
                                "summary")
    (match _generate_assistant_reply U "resume" " ßeta tester " with
     | inr r => Some r
     | inl _ => None
     end)
  = Some (Some (PStr "Sseta tester professional with a track record of delivering measurable outcomes.")).
Proof. reflexivity. Qed.

Example generate_jobs_example (U : UnicodeData) :
  option_map Reply.preview
    (match _generate_assistant_reply U "jobs" " éCOLE nationale" with
     | inr r => Some r
     | inl _ => None
     end)
  = Some (PDict [("type", PStr "jobs");
                 ("results", PList
                    [job "École Specialist" "Acme Corp" "Remote" 92;
                     job "Senior École" "Nimbus" "NYC, NY" 88;
                     job "École Analyst" "Orbit Labs" "Austin, TX" 83])]).
Proof. reflexivity. Qed.

Example object_id_examples :
  ObjectId BsonObjectId "65F0C0FFEE00000000000000" = inr (Oid "65f0c0ffee00000000000000")
  /\ ObjectId BsonObjectId "65 f0 c0 ff ee 00 00 00 " = inr (Oid "65f0c0ffee000000")
  /\ ObjectId BsonObjectId "65f0c0ffee0000000000000 " = inl InvalidId
  /\ ObjectId BsonObjectId "abc" = inl InvalidId
  /\ ObjectId StrFallback "abc" = inr (IdStr "abc").
Proof. repeat split; reflexivity. Qed.

Example chat_run_example :
  map (fun d => (MessageSchema.role (body d), MessageSchema.content (body d)))
      (message (db (snd (chat sample_unicode sample_env sample_sid sample_chat (sample_world jobs)))))
  = [("system", "CoPilot session created for jobs mode.");
     ("user", "a be it");
     ("assistant", "I found a few matching roles. Ask me to tailor your resume or draft outreach messages.")].
Proof. vm_compute. reflexivity. Qed.

(** ** Strings *)

Module StrFacts.

Lemma eqb_spec (a b : pystr) : reflect (a = b) (a =? b)%py.
Proof.
  revert b. induction a as [|x a IH]; intros [|y b]; simpl;
    try (constructor; congruence).
  destruct (N.eqb_spec x y) as [-> | Hxy]; simpl.
  - destruct (IH b) as [-> | Hab]; constructor; congruence.
  - constructor. congruence.
Qed.

Lemma eqb_eq (a b : pystr) : (a =? b)%py = true <-> a = b.
Proof. destruct (eqb_spec a b); split; congruence. Qed.

Lemma eqb_neq (a b : pystr) : (a =? b)%py = false <-> a <> b.
Proof. destruct (eqb_spec a b); split; congruence. Qed.

Lemma eqb_refl (a : pystr) : (a =? a)%py = true.
Proof. now apply eqb_eq. Qed.

End StrFacts.

Module PyStrFacts.
Import PyStr.

Lemma append_empty_r (s : pystr) : s ++ "" = s.
Proof. apply app_nil_r. Qed.

Lemma append_assoc (a b c : pystr) : (a ++ b) ++ c = a ++ (b ++ c).
Proof. symmetry. apply app_assoc. Qed.

Lemma append_nonempty (a : pystr) (c : N) :
  a ++ [c] <> "".
Proof. destruct a; discriminate. Qed.

Lemma lstrip_all_space (s : pystr) : all_space (lstrip s) = all_space s.
Proof.
  induction s as [|c r IH]; simpl; [reflexivity|].
  destruct (isspace c) eqn:Hc; simpl; [exact IH | now rewrite Hc].
Qed.

Lemma rstrip_nonempty (s : pystr) : nonempty (rstrip s) = negb (all_space s).
Proof.
  induction s as [|c r IH]; simpl; [reflexivity|].
  destruct (rstrip r) eqn:Hr; simpl in *.
  - assert (Hall : all_space r = true) by (destruct (all_space r); [reflexivity | discriminate]).
    rewrite Hall, andb_true_r. now destruct (isspace c).
  - assert (Hall : all_space r = false) by (destruct (all_space r); [discriminate | reflexivity]).
    now rewrite Hall, andb_false_r.
Qed.

(** [prompt.strip()] is truthy exactly when the prompt has a character that
    is not whitespace. *)
Lemma strip_nonempty (s : pystr) : nonempty (strip s) = negb (all_space s).
Proof. unfold strip. now rewrite rstrip_nonempty, lstrip_all_space. Qed.







Lemma no_space_app (a b : pystr) :
  no_space (a ++ b) = no_space a && no_space b.
Proof.
  induction a as [|c r IH]; simpl; [reflexivity|].
  now rewrite IH, andb_assoc.
Qed.

(** Reading on from a token in progress: the token is completed by the
    characters up to the next whitespace. *)
Lemma split_from_token (s cur : pystr) :
  cur <> "" ->
  exists t rest,
    split_from cur s = (cur ++ t) :: split_from "" rest
    /\ s = t ++ rest /\ no_space t = true /\ starts_blank rest = true.
Proof.
  revert cur. induction s as [|c r IH]; intros cur Hcur.
  - exists "", "". simpl. rewrite append_empty_r.
    destruct cur; [contradiction | auto].
  - simpl. destruct (isspace c) eqn:Hc.
    + exists "", (c :: r). simpl. rewrite Hc, append_empty_r.
      destruct cur; [contradiction | auto].
    + destruct (IH (cur ++ [c]) (append_nonempty cur c))
        as (t & rest & Hsp & Hs & Ht & Hrest).
      exists (c :: t), rest. simpl. rewrite Hc, Ht.
      rewrite Hsp, append_assoc. simpl. subst r. auto.
Qed.

(** [split] on a string: nothing when it is blank, otherwise its first
    whitespace-delimited token followed by the tokens of what is left. *)
Lemma split_first_token (s : pystr) :
  (all_space s = true /\ split s = [])
  \/ (all_space s = false /\
      exists ws tok rest,
        split s = tok :: split rest
        /\ s = ws ++ tok ++ rest
        /\ all_space ws = true /\ tok <> "" /\ no_space tok = true
        /\ starts_blank rest = true).
Proof.
  unfold split. induction s as [|c r IH]; simpl.
  - left. auto.
  - destruct (isspace c) eqn:Hc; simpl.
    + destruct IH as [(Ha & Hs) | (Ha & ws & tok & rest & Hs & Hr & Hws & Hne & Hns & Hb)].
      * left. auto.
      * right. split; [assumption|].
        exists (c :: ws), tok, rest. simpl. rewrite Hc, Hws.
        repeat split; auto; congruence.
    + right. split; [reflexivity|].
      destruct (split_from_token r [c]) as (t & rest & Hsp & Hs & Ht & Hb);
        [discriminate|].
      exists "", (c :: t), rest. simpl. rewrite Hc, Ht.
      repeat split; auto; congruence.
Qed.

Lemma split_nil_iff (s : pystr) : split s = [] <-> all_space s = true.
Proof.
  destruct (split_first_token s) as [(Ha & Hs) | (Ha & ws & tok & rest & Hs & _)].
  - tauto.
  - rewrite Hs, Ha. split; discriminate.
Qed.

Lemma slice_to_length (n : nat) (s : pystr) :
  List.length (slice_to n s) = Nat.min n (List.length s).
Proof.
  revert s. induction n as [|n IH]; intros [|c r]; simpl; auto.
Qed.





(** Capitalizing ASCII text: a small first letter becomes its capital, and
    every capital after the first character becomes its small letter. *)
Lemma latin1_title_ascii (c : N) :
  (c < 128)%N ->
  latin1_title c = [if ((97 <=? c) && (c <=? 122))%N then (c - 32)%N else c].
Proof.
  intros Hc. unfold latin1_title.
  destruct (N.leb_spec 97 c), (N.leb_spec c 122); simpl; try reflexivity;
    destruct (N.leb_spec 224 c), (N.leb_spec 248 c); simpl; try lia;
    destruct (N.eqb_spec c 181), (N.eqb_spec c 223), (N.eqb_spec c 255);
    try lia; reflexivity.
Qed.

Lemma latin1_lower_ascii (c : N) :
  (c < 128)%N ->
  latin1_lower c = if ((65 <=? c) && (c <=? 90))%N then (c + 32)%N else c.
Proof.
  intros Hc. unfold latin1_lower.
  destruct (N.leb_spec 65 c), (N.leb_spec c 90); simpl; try reflexivity;
    destruct (N.leb_spec 192 c), (N.leb_spec 216 c); simpl; try lia; reflexivity.
Qed.

(** Capitalizing text up to U+00FF: the title-case mapping of the first
    code point, then the lower-case mapping of each of the others. *)
Lemma lower_from_latin1 (U : UnicodeData) (s rest : pystr) (i : nat) :
  is_latin1 rest = true ->
  lower_from U s i rest = map latin1_lower rest.
Proof.
  revert i. induction rest as [|d r IH]; intros i Hr; simpl in *; [reflexivity|].
  apply andb_true_iff in Hr. destruct Hr as [Hd Hr].
  unfold lower_at. rewrite Hd, (IH _ Hr). reflexivity.
Qed.

Lemma capitalize_latin1 (U : UnicodeData) (c : N) (rest : pystr) :
  is_latin1 (c :: rest) = true ->
  capitalize U (c :: rest) = latin1_title c ++ map latin1_lower rest.
Proof.
  intros Ha. simpl in Ha. apply andb_true_iff in Ha. destruct Ha as [Hc Hr].
  unfold capitalize, title_full. now rewrite Hc, (lower_from_latin1 U _ rest 1 Hr).
Qed.

Lemma lower_from_ascii (U : UnicodeData) (s rest : pystr) (i : nat) :
  is_ascii rest = true ->
  lower_from U s i rest
  = map (fun d => if ((65 <=? d) && (d <=? 90))%N then (d + 32)%N else d) rest.
Proof.
  revert i. induction rest as [|d r IH]; intros i Hr; simpl in *; [reflexivity|].
  apply andb_true_iff in Hr. destruct Hr as [Hd Hr].
  apply N.ltb_lt in Hd. unfold lower_at.
  assert (H256 : (d <? 256)%N = true) by (apply N.ltb_lt; lia).
  rewrite H256, (latin1_lower_ascii d Hd), (IH _ Hr). reflexivity.
Qed.

Lemma capitalize_ascii (U : UnicodeData) (c : N) (rest : pystr) :
  is_ascii (c :: rest) = true ->
  capitalize U (c :: rest)
  = (if ((97 <=? c) && (c <=? 122))%N then (c - 32)%N else c)
    :: map (fun d => if ((65 <=? d) && (d <=? 90))%N then (d + 32)%N else d) rest.
Proof.
  intros Ha. simpl in Ha. apply andb_true_iff in Ha. destruct Ha as [Hc Hr].
  apply N.ltb_lt in Hc. unfold capitalize, title_full.
  assert (H256 : (c <? 256)%N = true) by (apply N.ltb_lt; lia).
  rewrite H256, (latin1_title_ascii c Hc), (lower_from_ascii U _ rest 1 Hr).
  reflexivity.
Qed.

End PyStrFacts.

(** ** The reply generator *)

Section Generator.

Variable U : UnicodeData.
Import PyStr PyStrFacts.

Lemma index_or_default {A} (l : list A) (i : nat) (d : A) :
  (if i <? List.length l then py_index l i else inr d) = inr (nth i l d).
Proof.
  unfold py_index. destruct (Nat.ltb_spec i (List.length l)) as [Hlt | Hge].
  - destruct (nth_error l i) eqn:He.
    + now rewrite (nth_error_nth l i d He).
    + apply nth_error_None in He. lia.
  - now rewrite nth_overflow.
Qed.

Lemma head_or_default {A} (l : list A) (d : A) :
  match l with [] => inr d | _ => py_index l 0 end = inr (nth 0 l d).
Proof. destruct l; reflexivity. Qed.

Lemma topics_of_length (prompt : pystr) : List.length (topics_of prompt) <= 3.
Proof. unfold topics_of. apply firstn_le_length. Qed.

Lemma topics_of_tokens (prompt t : pystr) :
  In t (topics_of prompt) -> In t (split prompt) /\ 3 < List.length t.
Proof.
  unfold topics_of. intros Hin.
  assert (Hsub := firstn_skipn 3 (filter (fun w => 3 <? List.length w) (split prompt))).
  assert (Hf : In t (filter (fun w => 3 <? List.length w) (split prompt))).
  { rewrite <- Hsub. apply in_or_app. now left. }
  apply filter_In in Hf. destruct Hf as [Hs Hl].
  apply Nat.ltb_lt in Hl. auto.
Qed.

Lemma topics_of_short (prompt : pystr) :
  (forall w, In w (split prompt) -> List.length w <= 3) ->
  topics_of prompt = [].
Proof.
  intros Hshort. unfold topics_of.
  assert (Hf : filter (fun w => 3 <? List.length w) (split prompt) = []).
  { induction (split prompt) as [|w l IH]; simpl; [reflexivity|].
    assert (Hw : List.length w <= 3) by (apply Hshort; now left).
    apply Nat.ltb_ge in Hw. rewrite Hw. apply IH.
    intros w' Hin. apply Hshort. now right. }
  now rewrite Hf.
Qed.

(** The interview branch in closed form: every guarded index succeeds. *)
Lemma generate_interview (prompt : pystr) :
  _generate_assistant_reply U "interview" prompt =
  inr {| Reply.text := "Here are tailored practice questions and guidance. Ask me to generate follow-ups or score your answers.";
         Reply.preview := PDict
           [("type", PStr "interview");
            ("questions", PList
               [PStr ("Tell me about a time you worked with "
                      ++ nth 0 (topics_of prompt) "a cross-functional team" ++ ".");
                PStr ("How would you approach "
                      ++ nth 1 (topics_of prompt) "prioritizing conflicting deadlines" ++ "?");
                PStr ("Describe a challenging "
                      ++ nth 2 (topics_of prompt) "project" ++ " and your impact.")]);
            ("tips", PList
               [PStr "Use STAR format (Situation, Task, Action, Result)";
                PStr "Quantify impact and highlight collaboration";
                PStr "Tie answers back to role requirements"])] |}.
Proof.
  unfold _generate_assistant_reply.
  change ("interview" =? "resume")%py with false.
  change ("interview" =? "interview")%py with true.
  cbv iota zeta.
  rewrite head_or_default, !index_or_default. reflexivity.
Qed.

(** The keyword of the jobs branch: the index into [prompt.split()] never
    fails, and the keyword is the literal "Role" on a blank prompt and the
    first whitespace-delimited token otherwise. *)
Lemma jobs_keyword (prompt : pystr) :
  exists keyword,
    (if nonempty (strip prompt) then py_index (split prompt) 0 else inr "Role")
    = inr keyword
    /\ ((all_space prompt = true /\ keyword = "Role")
        \/ (all_space prompt = false /\
            exists ws rest,
              prompt = ws ++ keyword ++ rest
              /\ all_space ws = true /\ keyword <> "" /\ no_space keyword = true
              /\ starts_blank rest = true)).
Proof.
  rewrite strip_nonempty.
  destruct (split_first_token prompt)
    as [(Ha & Hs) | (Ha & ws & tok & rest & Hs & Hp & Hws & Hne & Hns & Hb)];
    rewrite Ha; simpl.
  - exists "Role". auto.
  - exists tok. rewrite Hs. split; [reflexivity|].
    right. split; [reflexivity|]. exists ws, rest. auto.
Qed.

(** The generator returns on every input: no index it takes is out of
    range. *)
Lemma generator_total (mode prompt : pystr) :
  exists r, _generate_assistant_reply U mode prompt = inr r
            /\ exists kv, Reply.preview r = PDict kv /\ kv <> [].
Proof.
  unfold _generate_assistant_reply.
  destruct (mode =? "resume")%py.
  - eexists. split; [reflexivity|]. eexists. split; [reflexivity | discriminate].
  - destruct (mode =? "interview")%py.
    + cbv zeta. rewrite head_or_default, !index_or_default. simpl.
      eexists. split; [reflexivity|]. eexists. split; [reflexivity | discriminate].
    + destruct (jobs_keyword prompt) as (kw & Hkw & _). rewrite Hkw. simpl.
      eexists. split; [reflexivity|]. eexists. split; [reflexivity | discriminate].
Qed.

End Generator.

(** ** Identifiers *)

Lemma hex_digit_not_space (c : N) : is_hex_digit c = true -> ascii_space c = false.
Proof.
  intros H. destruct (ascii_space c) eqn:Hs; [|reflexivity]. exfalso.
  unfold is_hex_digit, ascii_space in *.
  rewrite !orb_true_iff, !andb_true_iff, !N.leb_le in *.
  rewrite N.eqb_eq in Hs. lia.
Qed.

Lemma fromhex_pairs (n : nat) (s : pystr) :
  List.length s = 2 * n -> all_hex s = true -> fromhex s = Some (map hex_lower s).
Proof.
  revert s. induction n as [|n IH]; intros s Hlen Hhex.
  - destruct s; [reflexivity | discriminate].
  - destruct s as [|c [|d r]]; simpl in Hlen; try lia.
    simpl in Hhex. apply andb_true_iff in Hhex. destruct Hhex as [Hc Hhex].
    apply andb_true_iff in Hhex. destruct Hhex as [Hd Hr].
    cbn [fromhex map]. rewrite (hex_digit_not_space c Hc), Hc, Hd. cbn [andb].
    rewrite (IH r) by (assumption || lia). reflexivity.
Qed.

(** On 24 hexadecimal digits [ObjectId] keeps the digits, in lower case. *)
Lemma oid_of_str_hex24 (s : pystr) :
  is_hex24 s = true -> oid_of_str s = Some (map hex_lower s).
Proof.
  unfold is_hex24, oid_of_str. intros H. apply andb_true_iff in H.
  destruct H as [Hlen Hhex]. rewrite Hlen. apply Nat.eqb_eq in Hlen.
  now apply (fromhex_pairs 12).
Qed.

(** A string names the session it is the identifier of. *)
Lemma resolves_to_own (s : Doc SessionSchema.t) :
  resolves_to (str_id (_id s)) s = true.
Proof. unfold resolves_to. now rewrite StrFacts.eqb_refl. Qed.

(** A string that [ObjectId] turns into the stored [_id] of a session names
    that session. *)
Lemma object_id_resolves (b : oid_binding) (sid : pystr) (q : id_value)
      (s : Doc SessionSchema.t) :
  ObjectId b sid = inr q ->
  id_eqb (_id s) q = true ->
  resolves_to sid s = true.
Proof.
  unfold ObjectId, resolves_to. intros Hq Heq. destruct b.
  - destruct (oid_of_str sid) as [h'|]; [|discriminate].
    injection Hq as <-. destruct (_id s) as [h | x]; simpl in Heq; [|discriminate].
    apply StrFacts.eqb_eq in Heq. subst h. rewrite StrFacts.eqb_refl.
    apply orb_true_r.
  - injection Hq as <-. destruct (_id s) as [h | x]; simpl in Heq; [discriminate|].
    apply StrFacts.eqb_eq in Heq. subst x. simpl. now rewrite StrFacts.eqb_refl.
Qed.

(** ** Lists *)

Lemma filter_snoc_false {A} (f : A -> bool) (l l' : list A) :
  forallb (fun x => negb (f x)) l' = true ->
  filter f (l ++ l') = filter f l.
Proof.
  intros H. rewrite filter_app.
  assert (Hnil : filter f l' = []).
  { induction l' as [|x r IH]; simpl in *; [reflexivity|].
    apply andb_true_iff in H. destruct H as [Hx Hr].
    apply negb_true_iff in Hx. rewrite Hx. now apply IH. }
  now rewrite Hnil, app_nil_r.
Qed.

Lemma eqb_neq_false (a b : pystr) : a <> b -> (a =? b)%py = false.
Proof. apply StrFacts.eqb_neq. Qed.

(** ** The handlers *)

Section HandlerFacts.

Variable U : UnicodeData.
Variable E : Env.

Lemma view_coerce {B} (d : Doc B) :
  set_id (view d) (_coerce_oid (_id (view d))) = view d.
Proof. reflexivity. Qed.

Lemma map_view_coerce {B} (l : list (Doc B)) :
  map (fun d => set_id d (_coerce_oid (_id d))) (map view l) = map view l.
Proof. rewrite map_map. apply map_ext. intros d. apply view_coerce. Qed.

Lemma list_messages_eq (sid : pystr) (w : World) :
  list_messages sid w = (inr (map view (session_messages sid (db w))), w).
Proof.
  unfold list_messages, bind, get_documents, ret. simpl.
  fold (@view MessageSchema.t). now rewrite map_view_coerce.
Qed.

Lemma get_preview_eq (sid : pystr) (w : World) :
  get_preview sid w =
  (inr {| PreviewResponse.session_id := sid;
          PreviewResponse.preview :=
            match latest (session_previews sid (db w)) with
            | None => PNone
            | Some d => PreviewSchema.content (body d)
            end |}, w).
Proof.
  unfold get_preview, bind, find_one_latest_preview, ret, session_previews.
  now destruct (latest _).
Qed.

(** The session lookup reads the store and writes nothing. *)
Lemma find_session_eq (sid : pystr) (w : World) :
  find_session E sid w =
  match ObjectId (binding E) sid with
  | inl e => (inl e, w)
  | inr q => (inr (find_by_id (session (db w)) q), w)
  end.
Proof.
  unfold find_session, bind, lift, find_one_session.
  destruct (binding E); simpl; [|reflexivity].
  now destruct (oid_of_str sid).
Qed.

Lemma find_session_frame (sid : pystr) (w : World) :
  snd (find_session E sid w) = w.
Proof. rewrite find_session_eq. now destruct (ObjectId _ _). Qed.

Lemma session_messages_app (sid : pystr) (db : Store)
      (l : list (Doc MessageSchema.t)) :
  filter (fun d => by_session_id sid (body d)) (message db ++ l)%list
  = (session_messages sid db ++ filter (fun d => by_session_id sid (body d)) l)%list.
Proof. apply filter_app. Qed.

(** [chat] when the lookup raises or finds nothing: the exception, and the
    world as it was. *)
Lemma chat_lookup_raises (sid : pystr) (p : ChatRequest.t) (w : World) (e : exn) :
  ObjectId (binding E) sid = inl e ->
  chat U E sid p w = (inl e, w).
Proof.
  intros H. unfold chat, bind. rewrite find_session_eq, H. reflexivity.
Qed.

Lemma chat_unknown_session (sid : pystr) (p : ChatRequest.t) (w : World)
      (q : id_value) :
  ObjectId (binding E) sid = inr q ->
  find_by_id (session (db w)) q = None ->
  chat U E sid p w = (inl (HTTPException 404 "Session not found"), w).
Proof.
  intros Hq Hnone. unfold chat, bind. rewrite find_session_eq, Hq, Hnone.
  reflexivity.
Qed.

(** [chat] on a session that exists, in closed form. *)
Lemma chat_found (sid : pystr) (p : ChatRequest.t) (w : World)
      (s : Doc SessionSchema.t) (reply : Reply.t) :
  find_session E sid w = (inr (Some s), w) ->
  _generate_assistant_reply U (SessionSchema.mode (body s)) (ChatRequest.content p)
  = inr reply ->
  let n := oids_issued w in
  let k := clock_reads w in
  let mode := SessionSchema.mode (body s) in
  let u := mkDoc (Oid (new_oid E n))
             {| MessageSchema.session_id := sid; MessageSchema.role := "user";
                MessageSchema.content := ChatRequest.content p;
                MessageSchema.meta := None |}
             (utcnow E k) (utcnow E (1 + k)) in
  let a := mkDoc (Oid (new_oid E (1 + n)))
             {| MessageSchema.session_id := sid; MessageSchema.role := "assistant";
                MessageSchema.content := Reply.text reply;
                MessageSchema.meta := Some [("mode", PStr mode)] |}
             (utcnow E (2 + k)) (utcnow E (3 + k)) in
  let pv := mkDoc (Oid (new_oid E (2 + n)))
              {| PreviewSchema.session_id := sid; PreviewSchema.mode := mode;
                 PreviewSchema.content := Reply.preview reply |}
              (utcnow E (4 + k)) (utcnow E (5 + k)) in
  chat U E sid p w =
  (inr {| ChatResponse.session_id := sid;
          ChatResponse.messages :=
            (map view (session_messages sid (db w)) ++ [view u; view a])%list;
          ChatResponse.preview := Reply.preview reply |},
   mkWorld (mkStore (session (db w)) (message (db w) ++ [u; a])%list
                    (preview (db w) ++ [pv])%list)
           (3 + n) (6 + k)).
Proof.
  intros Hfind Hgen n k mode u a pv.
  destruct (generator_total U (SessionSchema.mode (body s)) (ChatRequest.content p))
    as (r & Hr & kv & Hkv & Hne).
  rewrite Hgen in Hr. injection Hr as <-.
  assert (Htruthy : truthy (Reply.preview reply) = true).
  { rewrite Hkv. destruct kv; [contradiction | reflexivity]. }
  unfold chat, bind. rewrite Hfind.
  unfold create_document, bind, now, insert_one, ret, lift, get_documents. simpl.
  rewrite Hgen. simpl. rewrite Htruthy. simpl.
  fold (@view MessageSchema.t). rewrite map_view_coerce.
  rewrite <- app_assoc. simpl.
  rewrite session_messages_app, map_app. simpl.
  unfold by_session_id. simpl. rewrite StrFacts.eqb_refl. simpl.
  reflexivity.
Qed.

End HandlerFacts.

(** ** The latest preview *)

Section Latest.

Context {B : Type}.



(** A document stamped later than all the others is the latest, wherever
    the others stand. *)
Lemma latest_newest (l : list (Doc B)) (d : Doc B) :
  (forall d', In d' l -> (created_at d' < created_at d)%Z) ->
  latest (l ++ [d]) = Some d.
Proof.
  induction l as [|x r IH]; intros Hnew; simpl; [reflexivity|].
  rewrite IH by (intros d' Hd'; apply Hnew; now right).
  assert (Hx : (created_at x < created_at d)%Z) by (apply Hnew; now left).
  apply Z.ltb_lt in Hx. now rewrite Hx.
Qed.

End Latest.

(** ** Messages belong to sessions *)

Section Ownership.

Variable U : UnicodeData.
Variable E : Env.

Lemma create_session_eq (p : CreateSessionRequest.t) (w : World) :
  let n := oids_issued w in
  let k := clock_reads w in
  let sdoc := mkDoc (Oid (new_oid E n))
                {| SessionSchema.user_id := CreateSessionRequest.user_id p;
                   SessionSchema.mode := mode_name (CreateSessionRequest.mode p);
                   SessionSchema.title := CreateSessionRequest.title p;
                   SessionSchema.status := "active" |}
                (utcnow E k) (utcnow E (1 + k)) in
  let mdoc := mkDoc (Oid (new_oid E (1 + n)))
                {| MessageSchema.session_id := new_oid E n;
                   MessageSchema.role := "system";
                   MessageSchema.content :=
                     "CoPilot session created for "
                     ++ mode_name (CreateSessionRequest.mode p) ++ " mode.";
                   MessageSchema.meta := None |}
                (utcnow E (2 + k)) (utcnow E (3 + k)) in
  create_session E p w =
  (inr {| CreateSessionResponse.session_id := new_oid E n |},
   mkWorld (mkStore (session (db w) ++ [sdoc]) (message (db w) ++ [mdoc])
                    (preview (db w)))
           (2 + n) (4 + k)).
Proof. reflexivity. Qed.

Lemma resolved_owner (sid : pystr) (q : id_value)
      (m : Doc MessageSchema.t) (s : Doc SessionSchema.t) :
  ObjectId (binding E) sid = inr q ->
  id_eqb (_id s) q = true ->
  MessageSchema.session_id (body m) = sid ->
  owned_by m s = true.
Proof.
  unfold owned_by. intros Hq Heq ->. exact (object_id_resolves _ sid q s Hq Heq).
Qed.

Lemma existsb_app_l {A} (f : A -> bool) (l l' : list A) :
  existsb f l = true -> existsb f (l ++ l') = true.
Proof. intros H. rewrite existsb_app, H. reflexivity. Qed.

Lemma serve_consistent (r : request) (w : World) :
  consistent (db w) = true -> consistent (db (serve U E r w)) = true.
Proof.
  unfold consistent. intros Hc.
  destruct r as [p | sid | sid p | sid]; unfold serve; cbv iota.
  - rewrite create_session_eq. simpl. rewrite forallb_app. apply andb_true_iff. split.
    + rewrite forallb_forall in *. intros m Hm. apply existsb_app_l. now apply Hc.
    + cbn [forallb]. rewrite existsb_app. cbn [existsb].
      unfold owned_by at 2. unfold resolves_to. cbn [body MessageSchema.session_id _id str_id].
      rewrite StrFacts.eqb_refl. cbn [orb]. now rewrite orb_true_r.
  - now rewrite list_messages_eq.
  - destruct (ObjectId (binding E) sid) as [e | q] eqn:Hq.
    + now rewrite (chat_lookup_raises U E sid p w e Hq).
    + destruct (find_by_id (session (db w)) q) as [s|] eqn:Hs.
      * destruct (generator_total U (SessionSchema.mode (body s)) (ChatRequest.content p))
          as (reply & Hgen & _).
        assert (Hfind : find_session E sid w = (inr (Some s), w))
          by (now rewrite find_session_eq, Hq, Hs).
        rewrite (chat_found U E sid p w s reply Hfind Hgen). simpl.
        apply find_some in Hs. destruct Hs as [Hin Heq].
        rewrite forallb_app. apply andb_true_iff. split; [assumption|].
        simpl. rewrite andb_true_r. apply andb_true_iff.
        split; apply existsb_exists; exists s;
          (split; [assumption | now apply (resolved_owner sid q)]).
      * now rewrite (chat_unknown_session U E sid p w q Hq Hs).
  - now rewrite get_preview_eq.
Qed.

(** In every world a run reaches, each stored message belongs to a stored
    session. *)
Lemma reachable_consistent (w : World) :
  reachable U E w -> consistent (db w) = true.
Proof.
  induction 1 as [n k | r w _ IH]; [reflexivity|].
  now apply serve_consistent.
Qed.

(** No message of a consistent store carries an identifier that is fresh
    for the sessions. *)
Lemma fresh_has_no_message (w : World) :
  consistent (db w) = true ->
  next_oid_fresh E w = true ->
  session_messages (new_oid E (oids_issued w)) (db w) = [].
Proof.
  unfold consistent, next_oid_fresh, session_messages. cbv zeta.
  set (h := new_oid E (oids_issued w)).
  intros Hc Hf. apply andb_true_iff in Hf. destruct Hf as [_ Hfresh].
  rewrite forallb_forall in Hc, Hfresh.
  induction (message (db w)) as [|m l IH]; simpl; [reflexivity|].
  assert (Hm : by_session_id h (body m) = false).
  { unfold by_session_id. apply StrFacts.eqb_neq. intros Heq.
    specialize (Hc m (or_introl eq_refl)).
    apply existsb_exists in Hc. destruct Hc as (s & Hs & Hown).
    specialize (Hfresh s Hs). apply negb_true_iff in Hfresh.
    unfold owned_by in Hown. rewrite Heq in Hown. congruence. }
  rewrite Hm. apply IH. intros x Hx. apply Hc. now right.
Qed.

End Ownership.

(** ** What [chat] does, case by case *)

Section ChatCases.

Variable U : UnicodeData.
Variable E : Env.

(** A [chat] call that returns found its session, and is the closed form
    of [chat_found]. *)
Lemma chat_returns_inv (sid : pystr) (p : ChatRequest.t) (w w' : World)
      (resp : ChatResponse.t) :
  chat U E sid p w = (inr resp, w') ->
  exists s reply,
    find_session E sid w = (inr (Some s), w)
    /\ _generate_assistant_reply U (SessionSchema.mode (body s)) (ChatRequest.content p)
       = inr reply.
Proof.
  intros Hchat.
  destruct (ObjectId (binding E) sid) as [e | q] eqn:Hq.
  - rewrite (chat_lookup_raises U E sid p w e Hq) in Hchat. discriminate.
  - destruct (find_by_id (session (db w)) q) as [s|] eqn:Hs.
    + destruct (generator_total U (SessionSchema.mode (body s)) (ChatRequest.content p))
        as (reply & Hgen & _).
      exists s, reply. split; [|assumption].
      now rewrite find_session_eq, Hq, Hs.
    + rewrite (chat_unknown_session U E sid p w q Hq Hs) in Hchat. discriminate.
Qed.

(** Of the two exceptions [chat] itself gives rise to: when it raises
    [InvalidId], nothing has been written and the identifier is one bson's
    [ObjectId] rejects; when it raises the 404, nothing has been written
    and the lookup found no session under the identifier. *)
Lemma chat_raises_inv (sid : pystr) (p : ChatRequest.t) (w w' : World) (e : exn) :
  chat U E sid p w = (inl e, w') ->
  (e = InvalidId ->
   w' = w /\ binding E = BsonObjectId /\ oid_of_str sid = None)
  /\ (e = HTTPException 404 "Session not found" ->
      w' = w /\ exists q, ObjectId (binding E) sid = inr q
                          /\ find_by_id (session (db w)) q = None).
Proof.
  intros Hchat.
  destruct (ObjectId (binding E) sid) as [e' | q] eqn:Hq.
  - rewrite (chat_lookup_raises U E sid p w e' Hq) in Hchat.
    injection Hchat as <- <-.
    unfold ObjectId in Hq. destruct (binding E); [|discriminate].
    destruct (oid_of_str sid); [discriminate|]. injection Hq as <-.
    split; [auto | discriminate].
  - destruct (find_by_id (session (db w)) q) as [s|] eqn:Hs.
    + destruct (generator_total U (SessionSchema.mode (body s)) (ChatRequest.content p))
        as (reply & Hgen & _).
      assert (Hfind : find_session E sid w = (inr (Some s), w))
        by (now rewrite find_session_eq, Hq, Hs).
      rewrite (chat_found U E sid p w s reply Hfind Hgen) in Hchat. discriminate.
    + rewrite (chat_unknown_session U E sid p w q Hq Hs) in Hchat.
      injection Hchat as <- <-. split; [discriminate|]. intros _. eauto.
Qed.

(** With the [str] fallback for [ObjectId], or with a well-formed
    identifier, an unknown session is answered by the 404 and nothing is
    written. *)
Lemma chat_unknown_wellformed (sid : pystr) (p : ChatRequest.t) (w : World) :
  (binding E = StrFallback \/ is_hex24 sid = true) ->
  (forall s, find_session E sid w <> (inr (Some s), w)) ->
  chat U E sid p w = (inl (HTTPException 404 "Session not found"), w).
Proof.
  intros Hwf Hnone.
  assert (Hq : exists q, ObjectId (binding E) sid = inr q).
  { unfold ObjectId. destruct Hwf as [-> | Hhex]; [eauto|].
    rewrite (oid_of_str_hex24 sid Hhex). destruct (binding E); eauto. }
  destruct Hq as [q Hq].
  apply (chat_unknown_session U E sid p w q Hq).
  destruct (find_by_id (session (db w)) q) as [s|] eqn:Hs; [|reflexivity].
  exfalso. apply (Hnone s). now rewrite find_session_eq, Hq, Hs.
Qed.

End ChatCases.

(** * The claims of the specification *)

Section GeneratorClaims.
Import PyStr PyStrFacts.



(** C4, as the code has it: for every prompt, the interview branch splits
    the prompt on whitespace, keeps as topics the first (at most three)
    tokens longer than 3 characters, and builds exactly three questions
    from topics[0], topics[1] and topics[2], with the fallback phrases
    "a cross-functional team", "prioritizing conflicting deadlines" and
    "project" where a topic is missing; when every word of the prompt has
    at most 3 characters all three fallback phrases are used. *)
Theorem interview_questions_and_fallbacks (U : UnicodeData) (prompt : pystr) :
  let topics := topics_of prompt in
  topics = firstn 3 (filter (fun w => 3 <? List.length w) (split prompt))
  /\ List.length topics <= 3
  /\ (forall t, In t topics -> In t (split prompt) /\ 3 < List.length t)
  /\ (exists r,
        _generate_assistant_reply U "interview" prompt = inr r
        /\ Reply.preview r =
           PDict [("type", PStr "interview");
                  ("questions", PList
                     [PStr ("Tell me about a time you worked with "
                            ++ nth 0 topics "a cross-functional team" ++ ".");
                      PStr ("How would you approach "
                            ++ nth 1 topics "prioritizing conflicting deadlines" ++ "?");
                      PStr ("Describe a challenging "
                            ++ nth 2 topics "project" ++ " and your impact.")]);
                  ("tips", PList
                     [PStr "Use STAR format (Situation, Task, Action, Result)";
                      PStr "Quantify impact and highlight collaboration";
                      PStr "Tie answers back to role requirements"])])
  /\ ((forall w, In w (split prompt) -> List.length w <= 3) ->
      exists r,
        _generate_assistant_reply U "interview" prompt = inr r
        /\ dict_get (match Reply.preview r with PDict kv => kv | _ => [] end)
                    "questions"
           = Some (PList
               [PStr "Tell me about a time you worked with a cross-functional team.";
                PStr "How would you approach prioritizing conflicting deadlines?";
                PStr "Describe a challenging project and your impact."])).
Proof.
  cbv zeta. split; [reflexivity|].
  split; [apply topics_of_length|].
  split; [apply topics_of_tokens|].
  split.
  - eexists. split; [apply generate_interview | reflexivity].
  - intros Hshort. eexists. split; [apply generate_interview|].
    rewrite (topics_of_short prompt Hshort). reflexivity.
Qed.

Lemma interview_questions_and_fallbacks_witness :
  exists r,
    _generate_assistant_reply sample_unicode "interview" "a be it" = inr r
    /\ dict_get (match Reply.preview r with PDict kv => kv | _ => [] end)
                "questions"
       = Some (PList
           [PStr "Tell me about a time you worked with a cross-functional team.";
            PStr "How would you approach prioritizing conflicting deadlines?";
            PStr "Describe a challenging project and your impact."]).
Proof.
  apply (interview_questions_and_fallbacks sample_unicode "a be it").
  intros w [<- | [<- | [<- | []]]]; simpl; lia.
Defined.

(** C4, as the specification words it, fails on the prompt "a be it": the
    third question the generator builds is not the one with the fallback
    phrase "a project", and "a project" occurs nowhere in it. *)
Lemma interview_third_fallback_counterexample :
  exists r q3,
    _generate_assistant_reply sample_unicode "interview" "a be it" = inr r
    /\ dict_get (match Reply.preview r with PDict kv => kv | _ => [] end)
                "questions"
       <> Some (PList (spec_interview_questions "a be it"))
    /\ nth_error
         (match dict_get (match Reply.preview r with PDict kv => kv | _ => [] end)
                         "questions" with
          | Some (PList qs) => qs
          | _ => []
          end) 2 = Some (PStr q3)
    /\ q3 = "Describe a challenging project and your impact."
    /\ nth_error (spec_interview_questions "a be it") 2
       = Some (PStr "Describe a challenging a project and your impact.")
    /\ contains "a project" q3 = false.
Proof.
  eexists. eexists. split; [reflexivity|].
  split; [vm_compute; discriminate|].
  split; [reflexivity|]. split; [reflexivity|]. split; reflexivity.
Qed.



End GeneratorClaims.

Section HandlerClaims.

(** C1, at the input where the code departs from it: with bson's [ObjectId],
    the session id "abc" resolves to no stored session, yet [chat] raises
    [InvalidId] out of the lookup (an unhandled exception, not the 404
    "Session not found"); the store is left as it was. *)
Theorem chat_malformed_session_id_raises_invalid_id
        (U : UnicodeData) (ids : nat -> pystr) (clock : nat -> Z)
        (p : ChatRequest.t) (w : World) :
  let E := mkEnv BsonObjectId ids clock in
  (forall s, find_session E "abc" w <> (inr (Some s), w))
  /\ chat U E "abc" p w = (inl InvalidId, w)
  /\ chat U E "abc" p w <> (inl (HTTPException 404 "Session not found"), w).
Proof.
  cbv zeta. split; [|split].
  - intros s. rewrite find_session_eq. discriminate.
  - now apply chat_lookup_raises.
  - rewrite (chat_lookup_raises U (mkEnv BsonObjectId ids clock) "abc" p w InvalidId eq_refl).
    discriminate.
Qed.

(** C2, at the inputs where the code departs from it: [chat] finds a
    session under any spelling of its identifier that [ObjectId] accepts,
    but writes and re-fetches the messages under the spelling it was given.
    When that is not the identifier the earlier messages of the session
    carry (the one [create_session] returned and filed the seed message
    under), the call returns and appends one user and one assistant
    message, yet the message list it returns holds none of the earlier
    messages of the session, and [list_messages] on the session's
    identifier afterwards answers as before, without the two new
    messages. *)
Theorem chat_response_omits_earlier_messages
        (U : UnicodeData) (E : Env) (sid : pystr) (p : ChatRequest.t) (w : World)
        (s : Doc SessionSchema.t) (m : Doc MessageSchema.t) :
  find_session E sid w = (inr (Some s), w) ->
  sid <> str_id (_id s) ->
  In m (message (db w)) ->
  MessageSchema.session_id (body m) = str_id (_id s) ->
  exists before resp w' u a,
    list_messages (str_id (_id s)) w = (inr before, w)
    /\ In (view m) before
    /\ chat U E sid p w = (inr resp, w')
    /\ message (db w') = (message (db w) ++ [u; a])%list
    /\ MessageSchema.role (body u) = "user"
    /\ MessageSchema.role (body a) = "assistant"
    /\ ChatResponse.messages resp
       = (map view (session_messages sid (db w)) ++ [view u; view a])%list
    /\ ~ In (view m) (ChatResponse.messages resp)
    /\ list_messages (str_id (_id s)) w' = (inr before, w').
Proof.
  intros Hfind Hother Hin Hsid.
  destruct (generator_total U (SessionSchema.mode (body s)) (ChatRequest.content p))
    as (reply & Hgen & _).
  pose proof (chat_found U E sid p w s reply Hfind Hgen) as Hchat. cbv zeta in Hchat.
  exists (map view (session_messages (str_id (_id s)) (db w))).
  eexists. eexists. eexists. eexists.
  split; [apply list_messages_eq|].
  split.
  { apply in_map. unfold session_messages. apply filter_In. split; [assumption|].
    unfold by_session_id. rewrite Hsid. apply StrFacts.eqb_refl. }
  split; [exact Hchat|].
  split; [reflexivity|]. split; [reflexivity|]. split; [reflexivity|].
  split; [reflexivity|].
  split.
  - cbn [ChatResponse.messages]. intros Hin'. apply in_app_or in Hin'.
    destruct Hin' as [Hin' | Hin'].
    + apply in_map_iff in Hin'. destruct Hin' as (d & Hd & Hdin).
      unfold session_messages in Hdin. apply filter_In in Hdin.
      destruct Hdin as [_ Hby]. unfold by_session_id in Hby.
      apply StrFacts.eqb_eq in Hby.
      apply (f_equal (fun x => MessageSchema.session_id (body x))) in Hd.
      cbn [view set_id body] in Hd. congruence.
    + destruct Hin' as [Hu | [Ha | []]].
      * apply (f_equal (fun x => MessageSchema.session_id (body x))) in Hu.
        cbn [view set_id body MessageSchema.session_id] in Hu. congruence.
      * apply (f_equal (fun x => MessageSchema.session_id (body x))) in Ha.
        cbn [view set_id body MessageSchema.session_id] in Ha. congruence.
  - rewrite list_messages_eq. unfold session_messages. cbn [db message].
    rewrite filter_snoc_false; [reflexivity|].
    cbn [forallb body]. unfold by_session_id. cbn [MessageSchema.session_id].
    now rewrite (eqb_neq_false _ _ Hother).
Qed.

Lemma chat_response_omits_earlier_messages_witness :
  exists before resp w',
    list_messages sample_sid (sample_world interview)
    = (inr before, sample_world interview)
    /\ map (fun d => MessageSchema.role (body d)) before = ["system"]
    /\ chat sample_unicode sample_env "65F0C0FFEE00000000000000" sample_chat
            (sample_world interview) = (inr resp, w')
    /\ map (fun d => MessageSchema.role (body d)) (ChatResponse.messages resp)
       = ["user"; "assistant"]
    /\ list_messages sample_sid w' = (inr before, w').
Proof.
  assert (Hfind : find_session sample_env "65F0C0FFEE00000000000000" (sample_world interview)
                  = (inr (Some (sample_session interview)), sample_world interview))
    by (vm_compute; reflexivity).
  assert (Hother : "65F0C0FFEE00000000000000" <> str_id (_id (sample_session interview)))
    by (vm_compute; discriminate).
  destruct (message (db (sample_world interview))) as [|m l] eqn:Hm;
    [vm_compute in Hm; discriminate|].
  assert (Hin : In m (message (db (sample_world interview))))
    by (rewrite Hm; left; reflexivity).
  assert (Hsid : MessageSchema.session_id (body m) = str_id (_id (sample_session interview)))
    by (vm_compute in Hm; injection Hm as <- _; reflexivity).
  destruct (chat_response_omits_earlier_messages sample_unicode sample_env
              "65F0C0FFEE00000000000000" sample_chat (sample_world interview)
              (sample_session interview) m Hfind Hother Hin Hsid)
    as (before & resp & w' & u & a & Hlist & _ & Hchat & _ & Hu & Ha & Hresp & _ & Hafter).
  exists before, resp, w'.
  split; [exact Hlist|].
  split.
  { change (str_id (_id (sample_session interview))) with sample_sid in Hlist.
    rewrite list_messages_eq in Hlist. injection Hlist as <-.
    vm_compute. reflexivity. }
  split; [exact Hchat|].
  split; [|exact Hafter].
  rewrite Hresp, map_app.
  replace (session_messages "65F0C0FFEE00000000000000" (db (sample_world interview)))
    with (@nil (Doc MessageSchema.t)) by (vm_compute; reflexivity).
  cbn [map app view set_id body]. now rewrite Hu, Ha.
Defined.

(** C6: for every valid mode m, [create_session] writes one Session record
    (mode m, status "active") and then one seed Message of role "system"
    with content "CoPilot session created for {m} mode."; in a store where
    every message belongs to a session, and with a fresh identifier from the
    store, [list_messages] on the new session id then returns exactly that
    one message. *)
Theorem create_session_seeds_one_system_message
        (E : Env) (p : CreateSessionRequest.t) (w : World) :
  consistent (db w) = true ->
  next_oid_fresh E w = true ->
  exists sid w' sdoc mdoc,
    create_session E p w = (inr {| CreateSessionResponse.session_id := sid |}, w')
    /\ session (db w') = (session (db w) ++ [sdoc])%list
    /\ str_id (_id sdoc) = sid
    /\ body sdoc = {| SessionSchema.user_id := CreateSessionRequest.user_id p;
                      SessionSchema.mode := mode_name (CreateSessionRequest.mode p);
                      SessionSchema.title := CreateSessionRequest.title p;
                      SessionSchema.status := "active" |}
    /\ message (db w') = (message (db w) ++ [mdoc])%list
    /\ body mdoc = {| MessageSchema.session_id := sid;
                      MessageSchema.role := "system";
                      MessageSchema.content :=
                        "CoPilot session created for "
                        ++ mode_name (CreateSessionRequest.mode p) ++ " mode.";
                      MessageSchema.meta := None |}
    /\ preview (db w') = preview (db w)
    /\ list_messages sid w' = (inr [view mdoc], w').
Proof.
  intros Hc Hf.
  pose proof (create_session_eq E p w) as Hcs. cbv zeta in Hcs.
  eexists. eexists. eexists. eexists.
  split; [exact Hcs|].
  split; [reflexivity|]. split; [reflexivity|]. split; [reflexivity|].
  split; [reflexivity|]. split; [reflexivity|]. split; [reflexivity|].
  rewrite list_messages_eq. unfold session_messages at 1. simpl.
  rewrite session_messages_app, (fresh_has_no_message E w Hc Hf). simpl.
  unfold by_session_id. simpl. rewrite StrFacts.eqb_refl. reflexivity.
Qed.

Lemma create_session_seeds_one_system_message_witness :
  exists sid w' mdoc,
    create_session sample_env
      {| CreateSessionRequest.user_id := None;
         CreateSessionRequest.mode := jobs;
         CreateSessionRequest.title := None |} empty_world
    = (inr {| CreateSessionResponse.session_id := sid |}, w')
    /\ list_messages sid w' = (inr [view mdoc], w')
    /\ MessageSchema.role (body mdoc) = "system"
    /\ MessageSchema.content (body mdoc) = "CoPilot session created for jobs mode.".
Proof.
  destruct (create_session_seeds_one_system_message sample_env
              {| CreateSessionRequest.user_id := None;
                 CreateSessionRequest.mode := jobs;
                 CreateSessionRequest.title := None |} empty_world eq_refl eq_refl)
    as (sid & w' & sdoc & mdoc & Hcs & _ & _ & _ & _ & Hm & _ & Hlist).
  exists sid, w', mdoc. split; [exact Hcs|]. split; [exact Hlist|].
  rewrite Hm. split; reflexivity.
Defined.

(** C7: the reply generator is a function of (mode, prompt) alone: two calls
    with identical arguments return, and return the same reply (same text,
    same preview); and inside [chat] the reply depends on nothing else, so
    two calls in any two worlds, on sessions of the same mode and with the
    same content, answer with the same preview and store the same assistant
    text. *)
Theorem generator_deterministic
        (U : UnicodeData) (mode1 mode2 prompt1 prompt2 : pystr) :
  mode1 = mode2 ->
  prompt1 = prompt2 ->
  (exists r,
     _generate_assistant_reply U mode1 prompt1 = inr r
     /\ _generate_assistant_reply U mode2 prompt2 = inr r)
  /\ (forall r1 r2,
        _generate_assistant_reply U mode1 prompt1 = inr r1 ->
        _generate_assistant_reply U mode2 prompt2 = inr r2 ->
        Reply.text r1 = Reply.text r2 /\ Reply.preview r1 = Reply.preview r2)
  /\ (forall E1 E2 sid1 sid2 w1 w2 s1 s2 resp1 resp2 w1' w2',
        find_session E1 sid1 w1 = (inr (Some s1), w1) ->
        find_session E2 sid2 w2 = (inr (Some s2), w2) ->
        SessionSchema.mode (body s1) = mode1 ->
        SessionSchema.mode (body s2) = mode2 ->
        chat U E1 sid1 {| ChatRequest.content := prompt1 |} w1 = (inr resp1, w1') ->
        chat U E2 sid2 {| ChatRequest.content := prompt2 |} w2 = (inr resp2, w2') ->
        ChatResponse.preview resp1 = ChatResponse.preview resp2
        /\ map (fun d => MessageSchema.content (body d))
               (skipn (List.length (message (db w1))) (message (db w1')))
           = map (fun d => MessageSchema.content (body d))
                 (skipn (List.length (message (db w2))) (message (db w2')))).
Proof.
  intros <- <-.
  destruct (generator_total U mode1 prompt1) as (r & Hr & _).
  split; [exists r; auto|]. split.
  - intros r1 r2 H1 H2. rewrite H1 in H2. injection H2 as <-. auto.
  - intros E1 E2 sid1 sid2 w1 w2 s1 s2 resp1 resp2 w1' w2' Hf1 Hf2 Hm1 Hm2 Hc1 Hc2.
    rewrite <- Hm1 in Hr. pose proof Hr as Hr2. rewrite Hm1, <- Hm2 in Hr2.
    rewrite (chat_found U E1 sid1 {| ChatRequest.content := prompt1 |} w1 s1 r Hf1 Hr)
      in Hc1.
    rewrite (chat_found U E2 sid2 {| ChatRequest.content := prompt1 |} w2 s2 r Hf2 Hr2)
      in Hc2.
    injection Hc1 as <- <-. injection Hc2 as <- <-. simpl.
    split; [reflexivity|].
    rewrite !skipn_app, !skipn_all, !Nat.sub_diag. reflexivity.
Qed.

Lemma generator_deterministic_witness :
  exists r,
    _generate_assistant_reply sample_unicode "interview" "a be it" = inr r
    /\ _generate_assistant_reply sample_unicode "interview" "a be it" = inr r.
Proof.
  exact (proj1 (generator_deterministic sample_unicode
                  "interview" "interview" "a be it" "a be it" eq_refl eq_refl)).
Defined.

(** C8: the Preview record a [chat] call writes carries the mode read from
    the session document in that call (the session collection is not
    touched by the call), and the assistant message written in the same
    call carries that mode under "mode" in its meta mapping. *)
Theorem chat_preview_mode_is_session_mode
        (U : UnicodeData) (E : Env) (sid : pystr) (p : ChatRequest.t) (w w' : World)
        (s : Doc SessionSchema.t) (resp : ChatResponse.t) :
  find_session E sid w = (inr (Some s), w) ->
  chat U E sid p w = (inr resp, w') ->
  exists u a pv,
    session (db w') = session (db w)
    /\ preview (db w') = (preview (db w) ++ [pv])%list
    /\ PreviewSchema.session_id (body pv) = sid
    /\ PreviewSchema.mode (body pv) = SessionSchema.mode (body s)
    /\ message (db w') = (message (db w) ++ [u; a])%list
    /\ MessageSchema.role (body a) = "assistant"
    /\ MessageSchema.meta (body a)
       = Some [("mode", PStr (PreviewSchema.mode (body pv)))].
Proof.
  intros Hfind Hchat.
  destruct (generator_total U (SessionSchema.mode (body s)) (ChatRequest.content p))
    as (reply & Hgen & _).
  rewrite (chat_found U E sid p w s reply Hfind Hgen) in Hchat.
  injection Hchat as <- <-. simpl.
  eexists. eexists. eexists.
  repeat (split; [reflexivity|]). reflexivity.
Qed.

Lemma chat_preview_mode_is_session_mode_witness :
  exists resp w' pv,
    chat sample_unicode sample_env sample_sid sample_chat (sample_world jobs) = (inr resp, w')
    /\ preview (db w') = [pv]
    /\ PreviewSchema.mode (body pv) = "jobs".
Proof.
  assert (Hfind : find_session sample_env sample_sid (sample_world jobs)
                  = (inr (Some (sample_session jobs)), sample_world jobs))
    by (vm_compute; reflexivity).
  destruct (chat sample_unicode sample_env sample_sid sample_chat (sample_world jobs))
    as [[e | resp] w'] eqn:Hchat.
  - exfalso. vm_compute in Hchat. discriminate.
  - destruct (chat_preview_mode_is_session_mode sample_unicode sample_env sample_sid sample_chat
                (sample_world jobs) w' (sample_session jobs) resp Hfind Hchat)
      as (u & a & pv & _ & Hpv & _ & Hmode & _).
    exists resp, w', pv. split; [reflexivity|].
    split; [exact Hpv | exact Hmode].
Defined.




(** C10: for every mode and every prompt the reply generator returns, and its
    preview is a non-empty dictionary (neither None nor empty, so the test
    [if result.get("preview")] passes); hence every [chat] call that returns
    has persisted exactly one Preview record, holding the preview of the
    response, and the preview of the response is not None. *)
Theorem generator_preview_never_empty (U : UnicodeData) :
  (forall mode prompt,
     exists r kv,
       _generate_assistant_reply U mode prompt = inr r
       /\ Reply.preview r = PDict kv /\ kv <> []
       /\ Reply.preview r <> PNone
       /\ truthy (Reply.preview r) = true)
  /\ (forall E sid p w resp w',
        chat U E sid p w = (inr resp, w') ->
        ChatResponse.preview resp <> PNone
        /\ exists pv,
             preview (db w') = (preview (db w) ++ [pv])%list
             /\ PreviewSchema.session_id (body pv) = sid
             /\ PreviewSchema.content (body pv) = ChatResponse.preview resp).
Proof.
  split.
  - intros mode prompt.
    destruct (generator_total U mode prompt) as (r & Hr & kv & Hkv & Hne).
    exists r, kv. split; [assumption|]. split; [assumption|]. split; [assumption|].
    rewrite Hkv. split; [discriminate|]. destruct kv; [contradiction | reflexivity].
  - intros E sid p w resp w' Hchat.
    destruct (chat_returns_inv U E sid p w w' resp Hchat) as (s & reply & Hfind & Hgen).
    destruct (generator_total U (SessionSchema.mode (body s)) (ChatRequest.content p))
      as (r & Hr & kv & Hkv & _).
    rewrite Hgen in Hr. injection Hr as <-.
    rewrite (chat_found U E sid p w s reply Hfind Hgen) in Hchat.
    injection Hchat as <- <-. simpl.
    split; [rewrite Hkv; discriminate|].
    eexists. repeat (split; [reflexivity|]). reflexivity.
Qed.

Lemma generator_preview_never_empty_witness :
  exists resp w' pv,
    chat sample_unicode sample_env sample_sid sample_chat (sample_world resume) = (inr resp, w')
    /\ ChatResponse.preview resp <> PNone
    /\ preview (db w') = [pv]
    /\ PreviewSchema.content (body pv) = ChatResponse.preview resp.
Proof.
  destruct (chat sample_unicode sample_env sample_sid sample_chat (sample_world resume))
    as [[e | resp] w'] eqn:Hchat.
  - exfalso. vm_compute in Hchat. discriminate.
  - destruct (proj2 (generator_preview_never_empty sample_unicode) sample_env sample_sid sample_chat
                (sample_world resume) resp w' Hchat)
      as (Hnn & pv & Hpv & _ & Hcontent).
    exists resp, w', pv. split; [reflexivity|]. split; [exact Hnn|].
    split; [exact Hpv | exact Hcontent].
Defined.

End HandlerClaims.

(** * Further properties of the handlers *)

Section HandlerExtras.

(** For every session the lookup finds and every content, [chat] returns,
    appends to the message collection exactly one message of role "user"
    with the request's content and then exactly one of role "assistant" with
    the generated reply text and meta {mode}, both filed under the
    [session_id] string of the request; and the message list it returns
    (re-fetched from the store, and what [list_messages] gives afterwards) is
    the earlier messages filed under that same string followed by these
    two, in that order. *)
Theorem chat_appends_user_then_assistant
        (U : UnicodeData) (E : Env) (sid : pystr) (p : ChatRequest.t) (w : World)
        (s : Doc SessionSchema.t) :
  find_session E sid w = (inr (Some s), w) ->
  exists reply resp w' u a before,
    _generate_assistant_reply U (SessionSchema.mode (body s)) (ChatRequest.content p)
    = inr reply
    /\ chat U E sid p w = (inr resp, w')
    /\ list_messages sid w = (inr before, w)
    /\ message (db w') = (message (db w) ++ [u; a])%list
    /\ body u = {| MessageSchema.session_id := sid; MessageSchema.role := "user";
                   MessageSchema.content := ChatRequest.content p;
                   MessageSchema.meta := None |}
    /\ body a = {| MessageSchema.session_id := sid;
                   MessageSchema.role := "assistant";
                   MessageSchema.content := Reply.text reply;
                   MessageSchema.meta :=
                     Some [("mode", PStr (SessionSchema.mode (body s)))] |}
    /\ ChatResponse.messages resp = (before ++ [view u; view a])%list
    /\ list_messages sid w' = (inr (before ++ [view u; view a])%list, w').
Proof.
  intros Hfind.
  destruct (generator_total U (SessionSchema.mode (body s)) (ChatRequest.content p))
    as (reply & Hgen & _).
  pose proof (chat_found U E sid p w s reply Hfind Hgen) as Hchat. cbv zeta in Hchat.
  exists reply. eexists. eexists. eexists. eexists. eexists.
  split; [exact Hgen|]. split; [exact Hchat|].
  split; [apply list_messages_eq|].
  split; [reflexivity|]. split; [reflexivity|]. split; [reflexivity|].
  split; [reflexivity|].
  rewrite list_messages_eq. unfold session_messages at 1. simpl.
  rewrite session_messages_app, map_app. simpl.
  unfold by_session_id. simpl. rewrite StrFacts.eqb_refl. reflexivity.
Qed.

Lemma chat_appends_user_then_assistant_witness :
  exists resp w',
    chat sample_unicode sample_env sample_sid sample_chat (sample_world interview) = (inr resp, w')
    /\ map (fun d => MessageSchema.role (body d)) (ChatResponse.messages resp)
       = ["system"; "user"; "assistant"]
    /\ List.length (message (db w')) = 3.
Proof.
  destruct (chat_appends_user_then_assistant sample_unicode sample_env sample_sid sample_chat
              (sample_world interview) (sample_session interview) eq_refl)
    as (reply & resp & w' & u & a & before & _ & Hchat & Hlist & Hmsg & Hu & Ha & Hresp & _).
  exists resp, w'. split; [exact Hchat|].
  injection Hlist as <-.
  rewrite Hresp, Hmsg, map_app. simpl. rewrite Hu, Ha. split; reflexivity.
Defined.

Lemma chat_unknown_wellformed_witness :
  chat sample_unicode sample_env "65f0c0ffee00000000000009" sample_chat (sample_world jobs)
  = (inl (HTTPException 404 "Session not found"), sample_world jobs).
Proof.
  apply chat_unknown_wellformed.
  - right. reflexivity.
  - intros s. vm_compute. discriminate.
Defined.

Lemma chat_raises_inv_witness :
  binding sample_env = BsonObjectId /\ oid_of_str "no such session" = None.
Proof.
  assert (Hchat : chat sample_unicode sample_env "no such session" sample_chat
                       (sample_world jobs) = (inl InvalidId, sample_world jobs))
    by (vm_compute; reflexivity).
  exact (proj2 (proj1 (chat_raises_inv sample_unicode sample_env "no such session"
                         sample_chat (sample_world jobs) (sample_world jobs)
                         InvalidId Hchat) eq_refl)).
Defined.

Lemma reachable_consistent_witness :
  consistent (db (sample_world interview)) = true.
Proof.
  apply (reachable_consistent sample_unicode sample_env).
  apply (reach_serve sample_unicode sample_env
           (CreateSession {| CreateSessionRequest.user_id := None;
                             CreateSessionRequest.mode := interview;
                             CreateSessionRequest.title := None |}) empty_world).
  apply reach_start.
Defined.

(** When the preview a [chat] call writes is stamped later than every
    earlier preview of the session, [get_preview] afterwards answers the
    preview of that call. *)
Theorem get_preview_after_chat_when_newest
        (U : UnicodeData) (E : Env) (sid : pystr) (p : ChatRequest.t) (w w' : World)
        (resp : ChatResponse.t) :
  chat U E sid p w = (inr resp, w') ->
  (forall d, In d (preview (db w)) ->
             PreviewSchema.session_id (body d) = sid ->
             (created_at d < utcnow E (4 + clock_reads w))%Z) ->
  get_preview sid w'
  = (inr {| PreviewResponse.session_id := sid;
            PreviewResponse.preview := ChatResponse.preview resp |}, w').
Proof.
  intros Hchat Hnew.
  destruct (chat_returns_inv U E sid p w w' resp Hchat) as (s & reply & Hfind & Hgen).
  rewrite (chat_found U E sid p w s reply Hfind Hgen) in Hchat.
  injection Hchat as <- <-.
  rewrite get_preview_eq. unfold session_previews. simpl.
  rewrite filter_app. simpl.
  unfold preview_of_session at 2. simpl. rewrite StrFacts.eqb_refl.
  rewrite latest_newest; [reflexivity|].
  intros d Hd. apply filter_In in Hd. destruct Hd as [Hin Hsid].
  apply StrFacts.eqb_eq in Hsid. simpl. now apply Hnew.
Qed.

Lemma get_preview_after_chat_when_newest_witness :
  exists resp w',
    chat sample_unicode sample_env sample_sid sample_chat (sample_world jobs) = (inr resp, w')
    /\ get_preview sample_sid w'
       = (inr {| PreviewResponse.session_id := sample_sid;
                 PreviewResponse.preview := ChatResponse.preview resp |}, w').
Proof.
  destruct (chat sample_unicode sample_env sample_sid sample_chat (sample_world jobs))
    as [[e | resp] w'] eqn:Hchat.
  - exfalso. vm_compute in Hchat. discriminate.
  - exists resp, w'. split; [reflexivity|].
    apply (get_preview_after_chat_when_newest sample_unicode sample_env sample_sid sample_chat
             (sample_world jobs) w' resp Hchat).
    intros d [].
Defined.

End HandlerExtras.

(** * Runs of the service, step by step *)

Section ServeCases.

Variable U : UnicodeData.
Variable E : Env.

(** What one request does to the world: nothing, or the two insertions of
    [create_session], or the three of a [chat] that found its session. *)
Lemma serve_cases (r : request) (w : World) :
  serve U E r w = w
  \/ (exists p,
        r = CreateSession p
        /\ serve U E r w =
           mkWorld (mkStore (session (db w) ++ [session_written E p w])
                            (message (db w) ++ [seed_written E p w])
                            (preview (db w)))
                   (2 + oids_issued w) (4 + clock_reads w))
  \/ (exists sid p s reply,
        r = Chat sid p
        /\ find_session E sid w = (inr (Some s), w)
        /\ _generate_assistant_reply U (SessionSchema.mode (body s))
                                     (ChatRequest.content p) = inr reply
        /\ serve U E r w =
           mkWorld (mkStore (session (db w))
                            (message (db w)
                             ++ [user_written E sid p w;
                                 assistant_written E sid (SessionSchema.mode (body s))
                                                   reply w])
                            (preview (db w)
                             ++ [preview_written E sid (SessionSchema.mode (body s))
                                                 reply w]))
                   (3 + oids_issued w) (6 + clock_reads w)).
Proof.
  destruct r as [p | sid | sid p | sid]; unfold serve; cbv iota.
  - right. left. exists p. split; [reflexivity|].
    now rewrite create_session_eq.
  - left. now rewrite list_messages_eq.
  - destruct (ObjectId (binding E) sid) as [e | q] eqn:Hq.
    + left. now rewrite (chat_lookup_raises U E sid p w e Hq).
    + destruct (find_by_id (session (db w)) q) as [s|] eqn:Hs.
      * right. right.
        destruct (generator_total U (SessionSchema.mode (body s)) (ChatRequest.content p))
          as (reply & Hgen & _).
        assert (Hfind : find_session E sid w = (inr (Some s), w))
          by (now rewrite find_session_eq, Hq, Hs).
        exists sid, p, s, reply. split; [reflexivity|]. split; [assumption|].
        split; [assumption|].
        now rewrite (chat_found U E sid p w s reply Hfind Hgen).
      * left. now rewrite (chat_unknown_session U E sid p w q Hq Hs).
  - left. now rewrite get_preview_eq.
Qed.

(** A session found by the lookup is stored, and the looked-up string names
    it. *)
Lemma found_session_resolves (sid : pystr) (w : World) (s : Doc SessionSchema.t) :
  find_session E sid w = (inr (Some s), w) ->
  In s (session (db w)) /\ resolves_to sid s = true.
Proof.
  rewrite find_session_eq.
  destruct (ObjectId (binding E) sid) as [e | q] eqn:Hq; [discriminate|].
  intros [= Hfind]. apply find_some in Hfind. destruct Hfind as [Hin Heq].
  split; [assumption|]. exact (object_id_resolves _ sid q s Hq Heq).
Qed.

End ServeCases.

(** ** The reply text and the preview type *)

Lemma valid_mode_cases (m : pystr) :
  valid_mode m = true -> m = "resume" \/ m = "interview" \/ m = "jobs".
Proof.
  unfold valid_mode. intros H.
  apply orb_true_iff in H. destruct H as [H | H].
  - apply orb_true_iff in H. destruct H as [H | H]; apply StrFacts.eqb_eq in H; auto.
  - apply StrFacts.eqb_eq in H. auto.
Qed.

Lemma mode_name_valid (m : Mode) : valid_mode (mode_name m) = true.
Proof. destruct m; reflexivity. Qed.

(** For a mode of the three, the reply text is one of the three fixed
    sentences and the preview's ["type"] is the mode. *)
Lemma generator_text_and_type (U : UnicodeData) (mode prompt : pystr) (r : Reply.t) :
  valid_mode mode = true ->
  _generate_assistant_reply U mode prompt = inr r ->
  existsb (Str.eqb (Reply.text r)) assistant_texts = true
  /\ preview_type (Reply.preview r) = Some mode.
Proof.
  intros Hvalid Hgen.
  destruct (valid_mode_cases mode Hvalid) as [-> | [-> | ->]].
  - injection Hgen as <-. split; reflexivity.
  - rewrite generate_interview in Hgen. injection Hgen as <-. split; reflexivity.
  - unfold _generate_assistant_reply in Hgen.
    change ("jobs" =? "resume")%py with false in Hgen.
    change ("jobs" =? "interview")%py with false in Hgen.
    cbv iota in Hgen.
    destruct (jobs_keyword prompt) as (kw & Hkw & _). rewrite Hkw in Hgen.
    injection Hgen as <-. split; reflexivity.
Qed.

(** * What every run keeps true *)

Section Invariants.

Variable U : UnicodeData.
Variable E : Env.

Lemma serve_only_appends (r : request) (w : World) :
  exists ds dm dp,
    session (db (serve U E r w)) = (session (db w) ++ ds)%list
    /\ message (db (serve U E r w)) = (message (db w) ++ dm)%list
    /\ preview (db (serve U E r w)) = (preview (db w) ++ dp)%list.
Proof.
  destruct (serve_cases U E r w)
    as [-> | [(p & _ & ->) | (sid & p & s & reply & _ & _ & _ & ->)]].
  - exists [], [], []. now rewrite !app_nil_r.
  - exists [session_written E p w], [seed_written E p w], []. simpl.
    now rewrite app_nil_r.
  - exists [],
      [user_written E sid p w;
       assistant_written E sid (SessionSchema.mode (body s)) reply w],
      [preview_written E sid (SessionSchema.mode (body s)) reply w]. simpl.
    now rewrite app_nil_r.
Qed.

Lemma run_cons (r : request) (rs : list request) (w : World) :
  run U E (r :: rs) w = run U E rs (serve U E r w).
Proof. reflexivity. Qed.

Lemma run_app (rs rs' : list request) (w : World) :
  run U E (rs ++ rs') w = run U E rs' (run U E rs w).
Proof. unfold run. apply fold_left_app. Qed.

(** The worlds a run reaches from an empty store are exactly those [run]
    computes. *)
Lemma reachable_iff_run (w : World) :
  reachable U E w <-> exists rs n k, w = run U E rs (mkWorld empty_store n k).
Proof.
  split.
  - induction 1 as [n k | r w _ (rs & n & k & ->)].
    + exists [], n, k. reflexivity.
    + exists (rs ++ [r])%list, n, k. now rewrite run_app.
  - intros (rs & n & k & ->).
    induction rs as [|r rs IH] using rev_ind.
    + apply reach_start.
    + rewrite run_app. simpl. now apply reach_serve.
Qed.

Lemma existsb_app_mono {A} (f : A -> bool) (l l' : list A) :
  existsb f l = true -> existsb f (l ++ l') = true.
Proof. intros H. rewrite existsb_app, H. reflexivity. Qed.

Lemma preview_sound_mono (d d' : Store) (ds : list (Doc SessionSchema.t))
      (pv : Doc PreviewSchema.t) :
  session d' = (session d ++ ds)%list ->
  preview_sound d pv = true -> preview_sound d' pv = true.
Proof.
  unfold preview_sound. cbv zeta. intros -> H.
  apply andb_true_iff in H. destruct H as [H1 H2].
  apply andb_true_iff. split; [assumption|]. now apply existsb_app_mono.
Qed.

Lemma store_sound_iff (d : Store) :
  store_sound d = true <->
  (forall s, In s (session d) ->
             (exists h, _id s = Oid h) /\ valid_mode (SessionSchema.mode (body s)) = true)
  /\ (forall m, In m (message d) ->
                message_shape (body m) = true
                /\ existsb (resolves_to (MessageSchema.session_id (body m))) (session d)
                   = true)
  /\ (forall pv, In pv (preview d) -> preview_sound d pv = true).
Proof.
  unfold store_sound. rewrite !andb_true_iff, !forallb_forall.
  split.
  - intros [[Hs Hm] Hp]. split; [|split]; [| |assumption].
    + intros s Hin. specialize (Hs s Hin). apply andb_true_iff in Hs.
      destruct Hs as [Hid Hv]. split; [|assumption].
      destruct (_id s) as [h|x]; [eauto | discriminate].
    + intros m Hin. specialize (Hm m Hin). now apply andb_true_iff in Hm.
  - intros (Hs & Hm & Hp). split; [split|]; [| |assumption].
    + intros s Hin. destruct (Hs s Hin) as [[h Hh] Hv]. now rewrite Hh, Hv.
    + intros m Hin. apply andb_true_iff. now apply Hm.
Qed.

Lemma assistant_message_shape (sid mode content : pystr) :
  existsb (Str.eqb content) assistant_texts = true ->
  valid_mode mode = true ->
  message_shape {| MessageSchema.session_id := sid;
                   MessageSchema.role := "assistant";
                   MessageSchema.content := content;
                   MessageSchema.meta := Some [("mode", PStr mode)] |} = true.
Proof.
  intros Htext Hvalid. unfold message_shape.
  cbn [MessageSchema.role MessageSchema.content MessageSchema.meta].
  change ("assistant" =? "system")%py with false.
  change ("assistant" =? "user")%py with false.
  change ("assistant" =? "assistant")%py with true.
  change ("mode" =? "mode")%py with true.
  cbv iota. now rewrite Htext, Hvalid.
Qed.

Lemma serve_store_sound (r : request) (w : World) :
  store_sound (db w) = true -> store_sound (db (serve U E r w)) = true.
Proof.
  intros Hsound.
  destruct (serve_cases U E r w)
    as [-> | [(p & _ & ->) | (sid & p & s & reply & _ & Hfind & Hgen & ->)]];
    [assumption | |];
    apply store_sound_iff in Hsound; destruct Hsound as (Hs & Hm & Hp);
    apply store_sound_iff; simpl.
  - split; [|split].
    + intros s Hin. apply in_app_or in Hin. destruct Hin as [Hin | [<- | []]].
      * now apply Hs.
      * simpl. split; [eauto | apply mode_name_valid].
    + intros m Hin. apply in_app_or in Hin. destruct Hin as [Hin | [<- | []]].
      * destruct (Hm m Hin) as [Hshape Hown]. split; [assumption|].
        now apply existsb_app_mono.
      * split.
        -- unfold message_shape. simpl.
           destruct (CreateSessionRequest.mode p); reflexivity.
        -- rewrite existsb_app. simpl. unfold resolves_to at 2. simpl.
           rewrite StrFacts.eqb_refl. simpl. now rewrite orb_true_r.
    + intros pv Hin. eapply preview_sound_mono; [|now apply Hp]. reflexivity.
  - destruct (found_session_resolves E sid w s Hfind) as [Hin_s Hres].
    destruct (Hs s Hin_s) as [_ Hvalid].
    destruct (generator_text_and_type U _ _ reply Hvalid Hgen) as [Htext Htype].
    split; [assumption|]. split.
    + intros m Hin. apply in_app_or in Hin.
      destruct Hin as [Hin | [<- | [<- | []]]].
      * now apply Hm.
      * split; [reflexivity|]. simpl. apply existsb_exists. eauto.
      * split.
        -- now apply assistant_message_shape.
        -- simpl. apply existsb_exists. eauto.
    + intros pv Hin. apply in_app_or in Hin. destruct Hin as [Hin | [<- | []]].
      * eapply preview_sound_mono; [|now apply Hp]. simpl. now rewrite app_nil_r.
      * unfold preview_sound. simpl. rewrite Hvalid, Htype, StrFacts.eqb_refl. simpl.
        apply existsb_exists. exists s. split; [assumption|].
        now rewrite Hres, StrFacts.eqb_refl.
Qed.

Lemma reachable_store_sound (w : World) :
  reachable U E w -> store_sound (db w) = true.
Proof.
  induction 1 as [n k | r w _ IH]; [reflexivity | now apply serve_store_sound].
Qed.

Lemma serve_previews_stamped (r : request) (w : World) :
  previews_stamped E w -> previews_stamped E (serve U E r w).
Proof.
  unfold previews_stamped. intros Hst.
  destruct (serve_cases U E r w)
    as [-> | [(p & _ & ->) | (sid & p & s & reply & _ & _ & _ & ->)]];
    [assumption | |]; simpl; intros pv Hin.
  - destruct (Hst pv Hin) as (j & Hj & Heq). exists j. split; [lia | assumption].
  - apply in_app_or in Hin. destruct Hin as [Hin | [<- | []]].
    + destruct (Hst pv Hin) as (j & Hj & Heq). exists j. split; [lia | assumption].
    + exists (4 + clock_reads w). split; [lia | reflexivity].
Qed.

Lemma reachable_previews_stamped (w : World) :
  reachable U E w -> previews_stamped E w.
Proof.
  induction 1 as [n k | r w _ IH]; [intros pv [] | now apply serve_previews_stamped].
Qed.

End Invariants.

(** * Properties of whole runs *)

Section RunProperties.

Variable U : UnicodeData.
Variable E : Env.

(** No sequence of requests removes or rewrites a stored document: after any
    run each collection is what it was, with documents appended. *)
Theorem run_only_appends (rs : list request) (w : World) :
  exists ds dm dp,
    session (db (run U E rs w)) = (session (db w) ++ ds)%list
    /\ message (db (run U E rs w)) = (message (db w) ++ dm)%list
    /\ preview (db (run U E rs w)) = (preview (db w) ++ dp)%list.
Proof.
  revert w. induction rs as [|r rs IH]; intros w.
  - exists [], [], []. simpl. now rewrite !app_nil_r.
  - rewrite run_cons.
    destruct (IH (serve U E r w)) as (ds & dm & dp & Hs & Hm & Hp).
    destruct (serve_only_appends U E r w) as (ds0 & dm0 & dp0 & Hs0 & Hm0 & Hp0).
    exists (ds0 ++ ds)%list, (dm0 ++ dm)%list, (dp0 ++ dp)%list.
    rewrite Hs, Hm, Hp, Hs0, Hm0, Hp0, !app_assoc. auto.
Qed.

Lemma message_shape_cases (m : MessageSchema.t) :
  message_shape m = true ->
  (MessageSchema.role m = "system" /\ MessageSchema.meta m = None
   /\ exists md, MessageSchema.content m
                 = "CoPilot session created for " ++ mode_name md ++ " mode.")
  \/ (MessageSchema.role m = "user" /\ MessageSchema.meta m = None)
  \/ (MessageSchema.role m = "assistant"
      /\ In (MessageSchema.content m) assistant_texts
      /\ exists md, valid_mode md = true
                    /\ MessageSchema.meta m = Some [("mode", PStr md)]).
Proof.
  unfold message_shape. cbv zeta.
  destruct (MessageSchema.role m =? "system")%py eqn:Hsys.
  - apply StrFacts.eqb_eq in Hsys. intros H. apply andb_true_iff in H.
    destruct H as [Hmeta Hseed]. left. split; [assumption|]. split.
    + destruct (MessageSchema.meta m); [discriminate | reflexivity].
    + apply existsb_exists in Hseed. destruct Hseed as (md & _ & Hmd).
      apply StrFacts.eqb_eq in Hmd. eauto.
  - destruct (MessageSchema.role m =? "user")%py eqn:Husr.
    + apply StrFacts.eqb_eq in Husr. intros Hmeta. right. left. split; [assumption|].
      destruct (MessageSchema.meta m); [discriminate | reflexivity].
    + intros H. apply andb_true_iff in H. destruct H as [H Hmeta].
      apply andb_true_iff in H. destruct H as [Hrole Htext].
      apply StrFacts.eqb_eq in Hrole. right. right. split; [assumption|]. split.
      * apply existsb_exists in Htext. destruct Htext as (t & Hin & Ht).
        apply StrFacts.eqb_eq in Ht. now subst t.
      * destruct (MessageSchema.meta m) as [[|[k v] l]|]; try discriminate.
        destruct v; try discriminate. destruct l; try discriminate.
        apply andb_true_iff in Hmeta. destruct Hmeta as [Hk Hv].
        apply StrFacts.eqb_eq in Hk. subst k. eauto.
Qed.

(** In every world a run reaches from an empty store, each stored message
    is a seed message of some mode with no meta, a user message with no meta,
    or an assistant message whose content is one of the generator's three
    reply texts and whose meta is {mode} for a mode of the three; and its
    [session_id] names a stored session. *)
Theorem reachable_messages_well_formed (w : World) (m : Doc MessageSchema.t) :
  reachable U E w ->
  In m (message (db w)) ->
  ((MessageSchema.role (body m) = "system" /\ MessageSchema.meta (body m) = None
    /\ exists md, MessageSchema.content (body m)
                  = "CoPilot session created for " ++ mode_name md ++ " mode.")
   \/ (MessageSchema.role (body m) = "user" /\ MessageSchema.meta (body m) = None)
   \/ (MessageSchema.role (body m) = "assistant"
       /\ In (MessageSchema.content (body m)) assistant_texts
       /\ exists md, valid_mode md = true
                     /\ MessageSchema.meta (body m) = Some [("mode", PStr md)]))
  /\ exists s, In s (session (db w))
               /\ resolves_to (MessageSchema.session_id (body m)) s = true.
Proof.
  intros Hreach Hin.
  pose proof (reachable_store_sound U E w Hreach) as Hsound.
  apply store_sound_iff in Hsound. destruct Hsound as (_ & Hm & _).
  destruct (Hm m Hin) as [Hshape Hown].
  split; [now apply message_shape_cases|].
  now apply existsb_exists in Hown.
Qed.

(** In every world a run reaches from an empty store, each stored preview
    has a stored session that its [session_id] names and whose mode is the
    preview's mode; that mode is one of the three and is the ["type"] of the
    preview's content. *)
Theorem reachable_previews_agree_with_session (w : World) (pv : Doc PreviewSchema.t) :
  reachable U E w ->
  In pv (preview (db w)) ->
  valid_mode (PreviewSchema.mode (body pv)) = true
  /\ preview_type (PreviewSchema.content (body pv))
     = Some (PreviewSchema.mode (body pv))
  /\ exists s, In s (session (db w))
               /\ resolves_to (PreviewSchema.session_id (body pv)) s = true
               /\ SessionSchema.mode (body s) = PreviewSchema.mode (body pv).
Proof.
  intros Hreach Hin.
  pose proof (reachable_store_sound U E w Hreach) as Hsound.
  apply store_sound_iff in Hsound. destruct Hsound as (_ & _ & Hp).
  specialize (Hp pv Hin). unfold preview_sound in Hp. cbv zeta in Hp.
  apply andb_true_iff in Hp. destruct Hp as [Hp Hown].
  apply andb_true_iff in Hp. destruct Hp as [Hvalid Htype].
  split; [assumption|]. split.
  - destruct (preview_type _) as [t|]; [|discriminate].
    apply StrFacts.eqb_eq in Htype. now subst t.
  - apply existsb_exists in Hown. destruct Hown as (s & Hs & Hsm).
    apply andb_true_iff in Hsm. destruct Hsm as [Hres Hmode].
    apply StrFacts.eqb_eq in Hmode. eauto.
Qed.

(** With a clock whose readings strictly increase, in every world a run
    reaches from an empty store, [get_preview] after a [chat] call that
    returned answers the preview of that call. *)
Theorem get_preview_follows_chat_under_increasing_clock
        (sid : pystr) (p : ChatRequest.t) (w w' : World) (resp : ChatResponse.t) :
  (forall i j, i < j -> (utcnow E i < utcnow E j)%Z) ->
  reachable U E w ->
  chat U E sid p w = (inr resp, w') ->
  get_preview sid w'
  = (inr {| PreviewResponse.session_id := sid;
            PreviewResponse.preview := ChatResponse.preview resp |}, w').
Proof.
  intros Hclock Hreach Hchat.
  pose proof (reachable_previews_stamped U E w Hreach) as Hst.
  destruct (chat_returns_inv U E sid p w w' resp Hchat) as (s & reply & Hfind & Hgen).
  rewrite (chat_found U E sid p w s reply Hfind Hgen) in Hchat.
  injection Hchat as <- <-.
  rewrite get_preview_eq. unfold session_previews. simpl.
  rewrite filter_app. simpl.
  unfold preview_of_session at 2. simpl. rewrite StrFacts.eqb_refl.
  rewrite latest_newest; [reflexivity|].
  intros d Hd. apply filter_In in Hd. destruct Hd as [Hin _].
  destruct (Hst d Hin) as (j & Hj & ->). simpl. apply Hclock. lia.
Qed.

End RunProperties.

Lemma sample_run_reachable (m : Mode) (rs : list request) :
  reachable sample_unicode sample_env (run sample_unicode sample_env rs (sample_world m)).
Proof.
  apply (reachable_iff_run sample_unicode sample_env).
  exists (CreateSession {| CreateSessionRequest.user_id := None;
                           CreateSessionRequest.mode := m;
                           CreateSessionRequest.title := None |} :: rs), 0, 0.
  reflexivity.
Defined.

Lemma reachable_messages_well_formed_witness :
  exists m s,
    nth_error (message (db (run sample_unicode sample_env [Chat sample_sid sample_chat]
                                (sample_world resume)))) 2 = Some m
    /\ MessageSchema.role (body m) = "assistant"
    /\ In s (session (db (run sample_unicode sample_env [Chat sample_sid sample_chat]
                              (sample_world resume))))
    /\ resolves_to (MessageSchema.session_id (body m)) s = true.
Proof.
  set (w := run sample_unicode sample_env [Chat sample_sid sample_chat] (sample_world resume)).
  destruct (nth_error (message (db w)) 2) as [m|] eqn:Hm;
    [|exfalso; vm_compute in Hm; discriminate].
  destruct (reachable_messages_well_formed sample_unicode sample_env w m
              (sample_run_reachable resume _) (nth_error_In _ _ Hm))
    as (_ & s & Hs & Hres).
  exists m, s. split; [reflexivity|]. split; [|split; assumption].
  vm_compute in Hm. injection Hm as <-. reflexivity.
Defined.

Lemma reachable_previews_agree_with_session_witness :
  exists pv,
    preview (db (run sample_unicode sample_env [Chat sample_sid sample_chat] (sample_world interview)))
    = [pv]
    /\ preview_type (PreviewSchema.content (body pv)) = Some "interview".
Proof.
  set (w := run sample_unicode sample_env [Chat sample_sid sample_chat] (sample_world interview)).
  destruct (preview (db w)) as [|pv [|]] eqn:Hpv;
    try (exfalso; vm_compute in Hpv; discriminate).
  assert (Hin : In pv (preview (db w))) by (rewrite Hpv; now left).
  destruct (reachable_previews_agree_with_session sample_unicode sample_env w pv
              (sample_run_reachable interview _) Hin) as (_ & Htype & _).
  exists pv. split; [reflexivity|]. rewrite Htype.
  vm_compute in Hpv. injection Hpv as <-. reflexivity.
Defined.

Lemma get_preview_follows_chat_under_increasing_clock_witness :
  exists resp w',
    chat sample_unicode sample_env sample_sid {| ChatRequest.content := "data engineer" |}
         (run sample_unicode sample_env [Chat sample_sid sample_chat] (sample_world jobs))
    = (inr resp, w')
    /\ get_preview sample_sid w'
       = (inr {| PreviewResponse.session_id := sample_sid;
                 PreviewResponse.preview := ChatResponse.preview resp |}, w').
Proof.
  destruct (chat sample_unicode sample_env sample_sid {| ChatRequest.content := "data engineer" |}
              (run sample_unicode sample_env [Chat sample_sid sample_chat] (sample_world jobs)))
    as [[e | resp] w'] eqn:Hchat.
  - exfalso. vm_compute in Hchat. discriminate.
  - exists resp, w'. split; [reflexivity|].
    apply (get_preview_follows_chat_under_increasing_clock sample_unicode sample_env sample_sid
             {| ChatRequest.content := "data engineer" |}
             (run sample_unicode sample_env [Chat sample_sid sample_chat] (sample_world jobs))
             w' resp);
      [| apply sample_run_reachable | exact Hchat].
    intros i j Hij. unfold sample_env. cbn [utcnow]. lia.
Defined.

(** * Sessions side by side *)

Section Frames.

Variable U : UnicodeData.
Variable E : Env.

(** Serving a request leaves the answers of [list_messages] and
    [get_preview] for a session id as they were, unless the request is a
    [chat] on that very id or the [create_session] that is given it. *)
Theorem other_sessions_untouched (r : request) (w : World) (sid' : pystr) :
  match r with
  | Chat sid _ => sid <> sid'
  | CreateSession _ => new_oid E (oids_issued w) <> sid'
  | _ => True
  end ->
  fst (list_messages sid' (serve U E r w)) = fst (list_messages sid' w)
  /\ fst (get_preview sid' (serve U E r w)) = fst (get_preview sid' w).
Proof.
  intros Hother. rewrite !list_messages_eq, !get_preview_eq. simpl.
  destruct (serve_cases U E r w)
    as [-> | [(p & -> & Hw) | (sid & p & s & reply & -> & _ & _ & Hw)]];
    [auto | |]; rewrite Hw; unfold session_messages, session_previews; simpl.
  - rewrite filter_snoc_false; [auto|].
    simpl. unfold by_session_id. simpl. now rewrite (eqb_neq_false _ _ Hother).
  - rewrite !filter_snoc_false; [auto | |].
    + simpl. unfold preview_of_session. simpl. now rewrite (eqb_neq_false _ _ Hother).
    + simpl. unfold by_session_id. simpl. now rewrite (eqb_neq_false _ _ Hother).
Qed.

(** A [chat] call reaches a session under any spelling of its identifier
    that [ObjectId] accepts, but files its messages and preview under the
    spelling it was given: when that differs from the identifier
    [create_session] returned, the call returns with its two messages and
    [list_messages] and [get_preview] under the returned identifier answer
    as before. *)
Theorem chat_under_another_spelling
        (sid : pystr) (p : ChatRequest.t) (w : World) (s : Doc SessionSchema.t) :
  find_session E sid w = (inr (Some s), w) ->
  sid <> str_id (_id s) ->
  exists resp w',
    chat U E sid p w = (inr resp, w')
    /\ map (fun d => MessageSchema.role (body d))
           (skipn (List.length (session_messages sid (db w)))
                  (ChatResponse.messages resp)) = ["user"; "assistant"]
    /\ fst (list_messages (str_id (_id s)) w') = fst (list_messages (str_id (_id s)) w)
    /\ fst (get_preview (str_id (_id s)) w') = fst (get_preview (str_id (_id s)) w).
Proof.
  intros Hfind Hother.
  destruct (generator_total U (SessionSchema.mode (body s)) (ChatRequest.content p))
    as (reply & Hgen & _).
  pose proof (chat_found U E sid p w s reply Hfind Hgen) as Hchat. cbv zeta in Hchat.
  eexists. eexists. split; [exact Hchat|].
  rewrite !list_messages_eq, !get_preview_eq.
  unfold session_messages, session_previews. simpl. split; [|split].
  - rewrite skipn_app, length_map, Nat.sub_diag, skipn_all2; [reflexivity|].
    now rewrite length_map.
  - rewrite filter_snoc_false; [reflexivity|].
    simpl. unfold by_session_id. simpl. now rewrite (eqb_neq_false _ _ Hother).
  - rewrite filter_snoc_false; [reflexivity|].
    simpl. unfold preview_of_session. simpl. now rewrite (eqb_neq_false _ _ Hother).
Qed.

End Frames.

Lemma other_sessions_untouched_witness :
  fst (list_messages sample_sid
         (serve sample_unicode sample_env (Chat "65f0c0ffee00000000000002" sample_chat)
                (run sample_unicode sample_env
                     [CreateSession {| CreateSessionRequest.user_id := None;
                                       CreateSessionRequest.mode := resume;
                                       CreateSessionRequest.title := None |}]
                     (sample_world jobs))))
  = fst (list_messages sample_sid
           (run sample_unicode sample_env
                [CreateSession {| CreateSessionRequest.user_id := None;
                                  CreateSessionRequest.mode := resume;
                                  CreateSessionRequest.title := None |}]
                (sample_world jobs))).
Proof.
  apply (other_sessions_untouched sample_unicode sample_env
           (Chat "65f0c0ffee00000000000002" sample_chat)).
  vm_compute. discriminate.
Defined.

Lemma chat_under_another_spelling_witness :
  exists resp w',
    chat sample_unicode sample_env "65F0C0FFEE00000000000000" sample_chat (sample_world jobs)
    = (inr resp, w')
    /\ fst (list_messages sample_sid w') = fst (list_messages sample_sid (sample_world jobs)).
Proof.
  assert (Hfind : find_session sample_env "65F0C0FFEE00000000000000" (sample_world jobs)
                  = (inr (Some (sample_session jobs)), sample_world jobs))
    by (vm_compute; reflexivity).
  assert (Hother : "65F0C0FFEE00000000000000" <> str_id (_id (sample_session jobs)))
    by (vm_compute; discriminate).
  destruct (chat_under_another_spelling sample_unicode sample_env "65F0C0FFEE00000000000000"
              sample_chat (sample_world jobs) (sample_session jobs) Hfind Hother)
    as (resp & w' & Hchat & _ & Hlist & _).
  exists resp, w'. split; [exact Hchat | exact Hlist].
Defined.

(** * From [create_session] to [chat] *)

Section RoundTrip.

Variable U : UnicodeData.
Variable E : Env.

(** A string that names a stored session is not the identifier the store
    gives next. *)
Lemma resolved_is_not_fresh (w : World) (sid : pystr) (s : Doc SessionSchema.t) :
  next_oid_fresh E w = true ->
  In s (session (db w)) ->
  resolves_to sid s = true ->
  sid <> new_oid E (oids_issued w).
Proof.
  unfold next_oid_fresh. cbv zeta. set (h := new_oid E (oids_issued w)).
  intros Hf Hin Hres Heq. apply andb_true_iff in Hf. destruct Hf as [_ Hfresh].
  rewrite forallb_forall in Hfresh.
  specialize (Hfresh s Hin). apply negb_true_iff in Hfresh. congruence.
Qed.

Lemma filter_none {A} (f : A -> bool) (l : list A) :
  (forall x, In x l -> f x = false) -> filter f l = [].
Proof.
  induction l as [|x r IH]; intros H; simpl; [reflexivity|].
  rewrite (H x (or_introl eq_refl)). apply IH. intros y Hy. apply H. now right.
Qed.

Lemma find_by_id_fresh (w : World) (d : Doc SessionSchema.t) :
  next_oid_fresh E w = true ->
  _id d = Oid (new_oid E (oids_issued w)) ->
  find_by_id (session (db w) ++ [d]) (Oid (new_oid E (oids_issued w))) = Some d.
Proof.
  unfold next_oid_fresh, find_by_id. cbv zeta. set (h := new_oid E (oids_issued w)).
  intros Hf Hd. apply andb_true_iff in Hf. destruct Hf as [_ Hfresh].
  rewrite forallb_forall in Hfresh.
  induction (session (db w)) as [|s l IH]; simpl.
  - rewrite Hd. simpl. now rewrite StrFacts.eqb_refl.
  - assert (Hs : id_eqb (_id s) (Oid h) = false).
    { specialize (Hfresh s (or_introl eq_refl)).
      apply negb_true_iff in Hfresh. unfold resolves_to in Hfresh.
      apply orb_false_iff in Hfresh. destruct Hfresh as [Hne _].
      destruct (_id s) as [h' | x]; [|reflexivity].
      simpl in *. apply StrFacts.eqb_neq in Hne. apply StrFacts.eqb_neq. congruence. }
    rewrite Hs. apply IH. intros x Hx. apply Hfresh. now right.
Qed.

(** The identifier [create_session] returns is one [chat] accepts: with
    bson's [ObjectId], a well-formed fresh identifier from the store, and a
    store as runs of the service leave it, a [chat] call on the returned
    identifier returns; its message list is the seed message, the user
    message and the assistant message; its preview is of the type of the
    session's mode; and [get_preview] then answers that preview. *)
Theorem chat_accepts_created_session
        (p : CreateSessionRequest.t) (c : ChatRequest.t) (w : World) :
  binding E = BsonObjectId ->
  is_hex24 (new_oid E (oids_issued w)) = true ->
  next_oid_fresh E w = true ->
  store_sound (db w) = true ->
  exists sid w1 resp w2,
    create_session E p w = (inr {| CreateSessionResponse.session_id := sid |}, w1)
    /\ chat U E sid c w1 = (inr resp, w2)
    /\ map (fun d => (MessageSchema.role (body d), MessageSchema.content (body d)))
           (ChatResponse.messages resp)
       = ("system", "CoPilot session created for "
                    ++ mode_name (CreateSessionRequest.mode p) ++ " mode.")
         :: ("user", ChatRequest.content c)
         :: match _generate_assistant_reply U (mode_name (CreateSessionRequest.mode p))
                                            (ChatRequest.content c) with
            | inr reply => [("assistant", Reply.text reply)]
            | inl _ => []
            end
    /\ preview_type (ChatResponse.preview resp)
       = Some (mode_name (CreateSessionRequest.mode p))
    /\ get_preview sid w2
       = (inr {| PreviewResponse.session_id := sid;
                 PreviewResponse.preview := ChatResponse.preview resp |}, w2).
Proof.
  intros Hbson Hhex Hfresh Hsound.
  set (h := new_oid E (oids_issued w)) in *.
  pose proof (create_session_eq E p w) as Hcs. cbv zeta in Hcs.
  fold (session_written E p w) in Hcs. fold (seed_written E p w) in Hcs.
  set (w1 := mkWorld (mkStore (session (db w) ++ [session_written E p w])
                              (message (db w) ++ [seed_written E p w])
                              (preview (db w)))
                     (2 + oids_issued w) (4 + clock_reads w)) in *.
  assert (Hlow : map hex_lower h = h).
  { unfold next_oid_fresh in Hfresh. cbv zeta in Hfresh.
    apply andb_true_iff in Hfresh. destruct Hfresh as [Hl _].
    now apply StrFacts.eqb_eq in Hl. }
  assert (Hfind : find_session E h w1 = (inr (Some (session_written E p w)), w1)).
  { rewrite find_session_eq, Hbson. unfold ObjectId.
    rewrite (oid_of_str_hex24 h Hhex), Hlow.
    unfold w1, h. cbn [db session].
    now rewrite (find_by_id_fresh w (session_written E p w) Hfresh eq_refl). }
  destruct (generator_total U (mode_name (CreateSessionRequest.mode p))
                            (ChatRequest.content c)) as (reply & Hgen & _).
  destruct (generator_text_and_type U _ _ reply
              (mode_name_valid (CreateSessionRequest.mode p)) Hgen) as [_ Htype].
  pose proof (chat_found U E h c w1 (session_written E p w) reply Hfind Hgen) as Hchat.
  cbv zeta in Hchat.
  apply store_sound_iff in Hsound. destruct Hsound as (_ & Hm & Hp).
  assert (Hnomsg : session_messages h (db w) = []).
  { unfold session_messages. apply filter_none. intros m Hin.
    destruct (Hm m Hin) as [_ Hown]. apply existsb_exists in Hown.
    destruct Hown as (s & Hs & Hres).
    apply StrFacts.eqb_neq. exact (resolved_is_not_fresh w _ s Hfresh Hs Hres). }
  assert (Hnoprev : session_previews h (db w) = []).
  { unfold session_previews. apply filter_none. intros pv Hin.
    specialize (Hp pv Hin). unfold preview_sound in Hp. cbv zeta in Hp.
    apply andb_true_iff in Hp. destruct Hp as [_ Hown].
    apply existsb_exists in Hown. destruct Hown as (s & Hs & Hsm).
    apply andb_true_iff in Hsm. destruct Hsm as [Hres _].
    apply StrFacts.eqb_neq. exact (resolved_is_not_fresh w _ s Hfresh Hs Hres). }
  exists h, w1. eexists. eexists.
  split; [exact Hcs|]. split; [exact Hchat|].
  rewrite Hgen. split; [|split].
  - simpl. unfold session_messages. simpl. rewrite filter_app.
    fold (session_messages h (db w)). rewrite Hnomsg. simpl.
    unfold by_session_id. simpl. fold h. rewrite StrFacts.eqb_refl. reflexivity.
  - exact Htype.
  - rewrite get_preview_eq. unfold session_previews. simpl. rewrite filter_app.
    fold (session_previews h (db w)). rewrite Hnoprev. simpl.
    unfold preview_of_session. simpl. rewrite StrFacts.eqb_refl. reflexivity.
Qed.

(** With the fallback binding [ObjectId = str], [chat] looks sessions up by
    a string, and the identifiers the store assigns are ObjectIds: in every
    world a run reaches from an empty store, every [chat] call raises the 404
    and writes nothing. *)
Theorem chat_with_str_fallback_finds_no_session
        (sid : pystr) (p : ChatRequest.t) (w : World) :
  binding E = StrFallback ->
  reachable U E w ->
  chat U E sid p w = (inl (HTTPException 404 "Session not found"), w).
Proof.
  intros Hstr Hreach.
  apply (chat_unknown_session U E sid p w (IdStr sid)); [now rewrite Hstr|].
  pose proof (reachable_store_sound U E w Hreach) as Hsound.
  apply store_sound_iff in Hsound. destruct Hsound as (Hs & _ & _).
  unfold find_by_id.
  destruct (find (fun d => id_eqb (_id d) (IdStr sid)) (session (db w))) as [s|] eqn:Hf;
    [|reflexivity].
  apply find_some in Hf. destruct Hf as [Hin Heq].
  destruct (Hs s Hin) as [[h Hh] _]. rewrite Hh in Heq. discriminate.
Qed.

End RoundTrip.

Lemma chat_accepts_created_session_witness :
  exists sid w1 resp w2,
    create_session sample_env
      {| CreateSessionRequest.user_id := None;
         CreateSessionRequest.mode := interview;
         CreateSessionRequest.title := None |} (sample_world jobs)
    = (inr {| CreateSessionResponse.session_id := sid |}, w1)
    /\ chat sample_unicode sample_env sid sample_chat w1 = (inr resp, w2)
    /\ preview_type (ChatResponse.preview resp) = Some "interview".
Proof.
  destruct (chat_accepts_created_session sample_unicode sample_env
              {| CreateSessionRequest.user_id := None;
                 CreateSessionRequest.mode := interview;
                 CreateSessionRequest.title := None |} sample_chat (sample_world jobs)
              eq_refl eq_refl eq_refl eq_refl)
    as (sid & w1 & resp & w2 & Hcs & Hchat & _ & Htype & _).
  exists sid, w1, resp, w2. split; [exact Hcs|]. split; [exact Hchat | exact Htype].
Defined.

Lemma chat_with_str_fallback_finds_no_session_witness :
  let E := mkEnv StrFallback sample_oid (fun n => Z.of_nat n) in
  chat sample_unicode E sample_sid sample_chat
       (run sample_unicode E [CreateSession {| CreateSessionRequest.user_id := None;
                                CreateSessionRequest.mode := jobs;
                                CreateSessionRequest.title := None |}] empty_world)
  = (inl (HTTPException 404 "Session not found"),
     run sample_unicode E [CreateSession {| CreateSessionRequest.user_id := None;
                             CreateSessionRequest.mode := jobs;
                             CreateSessionRequest.title := None |}] empty_world).
Proof.
  cbv zeta.
  apply (chat_with_str_fallback_finds_no_session sample_unicode
           (mkEnv StrFallback sample_oid (fun n => Z.of_nat n))); [reflexivity|].
  apply reachable_iff_run. eexists. exists 0, 0. reflexivity.
Defined.

(** * The generator and the prompt's layout *)

Section GeneratorLayout.
Import PyStr PyStrFacts.

Lemma all_space_of_split (p1 p2 : pystr) :
  split p1 = split p2 -> all_space p1 = all_space p2.
Proof.
  intros Hsplit.
  destruct (all_space p1) eqn:H1, (all_space p2) eqn:H2; try reflexivity.
  - apply split_nil_iff in H1. rewrite Hsplit in H1. apply split_nil_iff in H1. congruence.
  - apply split_nil_iff in H2. rewrite <- Hsplit in H2. apply split_nil_iff in H2. congruence.
Qed.

(** Outside resume mode the reply depends on the prompt only through its
    whitespace-delimited tokens: two prompts with the same tokens (however
    they are spaced) get the same reply; and every mode other than "resume"
    and "interview" gets the reply of "jobs". *)
Theorem reply_depends_on_tokens_only (U : UnicodeData) (mode p1 p2 : pystr) :
  mode <> "resume" ->
  split p1 = split p2 ->
  _generate_assistant_reply U mode p1 = _generate_assistant_reply U mode p2
  /\ (mode <> "interview" ->
      _generate_assistant_reply U mode p1 = _generate_assistant_reply U "jobs" p2).
Proof.
  intros Hmode Hsplit. apply StrFacts.eqb_neq in Hmode.
  unfold _generate_assistant_reply. rewrite Hmode.
  change ("jobs" =? "resume")%py with false.
  change ("jobs" =? "interview")%py with false. cbv iota.
  unfold topics_of. rewrite !strip_nonempty, (all_space_of_split p1 p2 Hsplit), Hsplit.
  split; [reflexivity|].
  intros Hint. apply StrFacts.eqb_neq in Hint. now rewrite Hint.
Qed.

Lemma reply_depends_on_tokens_only_witness :
  _generate_assistant_reply sample_unicode "interview" "  data   platform migration "
  = _generate_assistant_reply sample_unicode "interview" "data platform migration".
Proof.
  assert (Hmode : "interview" <> "resume") by discriminate.
  assert (Hsplit : split "  data   platform migration " = split "data platform migration")
    by (vm_compute; reflexivity).
  exact (proj1 (reply_depends_on_tokens_only sample_unicode "interview"
                  "  data   platform migration " "data platform migration"
                  Hmode Hsplit)).
Defined.

Lemma length_append (a b : pystr) :
  List.length (a ++ b) = List.length a + List.length b.
Proof. induction a as [|c r IH]; simpl; [reflexivity | now rewrite IH]. Qed.

Lemma latin1_title_length (c : N) :
  1 <= List.length (latin1_title c) <= 2.
Proof.
  unfold latin1_title.
  repeat match goal with |- context [if ?b then _ else _] => destruct b end;
    simpl; lia.
Qed.

(** However long the prompt, no bullet of the resume preview exceeds 90
    characters: the first embeds at most the first 60 characters of the
    prompt and the other two are fixed.  The summary is the fixed suffix of
    68 characters longer than the trimmed prompt when that is ASCII text;
    on text up to U+00FF capitalizing can add one character (a first
    U+00DF becomes "Ss"). *)
Theorem resume_bullets_are_bounded (U : UnicodeData) (prompt : pystr) :
  exists r summary items,
    _generate_assistant_reply U "resume" prompt = inr r
    /\ Reply.preview r =
       PDict [("type", PStr "resume");
              ("summary", PStr summary);
              ("sections", PList [PDict [("title", PStr "Highlights");
                                         ("items", PList items)]])]
    /\ (forall v, In v items -> exists t, v = PStr t /\ List.length t <= 90)
    /\ (is_ascii (strip prompt) = true ->
        List.length summary = List.length (strip prompt) + 68)
    /\ (is_latin1 (strip prompt) = true ->
        List.length (strip prompt) + 68 <= List.length summary
        <= List.length (strip prompt) + 69).
Proof.
  eexists. eexists. eexists.
  split; [reflexivity|]. split; [reflexivity|]. split; [|split].
  - intros v [<- | [<- | [<- | []]]]; eexists; (split; [reflexivity|]).
    + rewrite !length_append, slice_to_length.
      pose proof (Nat.le_min_l 60 (List.length prompt)) as Hmin.
      replace (List.length "Led initiatives related to ") with 27 by reflexivity.
      replace (List.length "...") with 3 by reflexivity. lia.
    + vm_compute. lia.
    + vm_compute. lia.
  - intros Ha. rewrite length_append.
    replace (List.length " professional with a track record of delivering measurable outcomes.")
      with 68 by reflexivity.
    f_equal.
    destruct (strip prompt) as [|c r]; [reflexivity|].
    rewrite (capitalize_ascii U c r Ha). cbn [List.length]. now rewrite length_map.
  - intros Hl. rewrite length_append.
    replace (List.length " professional with a track record of delivering measurable outcomes.")
      with 68 by reflexivity.
    destruct (strip prompt) as [|c r]; [simpl; lia|].
    rewrite (capitalize_latin1 U c r Hl), length_append, length_map.
    pose proof (latin1_title_length c). cbn [List.length]. lia.
Qed.

Lemma resume_bullets_are_bounded_witness :
  exists r summary,
    _generate_assistant_reply sample_unicode "resume" " ßeta tester " = inr r
    /\ dict_get (match Reply.preview r with PDict kv => kv | _ => [] end) "summary"
       = Some (PStr summary)
    /\ List.length (strip " ßeta tester ") = 11
    /\ 79 <= List.length summary <= 80.
Proof.
  destruct (resume_bullets_are_bounded sample_unicode " ßeta tester ")
    as (r & summary & items & Hgen & Hprev & _ & _ & Hlen).
  exists r, summary. split; [exact Hgen|].
  split; [rewrite Hprev; reflexivity|].
  split; [reflexivity|].
  exact (Hlen eq_refl).
Defined.

End GeneratorLayout.

(** * The diagnostic route *)

Section Diagnostics.

(** Whatever the store handle is, [test_database] reports under
    ["database_url"] and ["database_name"] only whether the two environment
    variables are set and non-empty: the values written inside the branch
    (among them the handle's own name) are overwritten before the return,
    and neither field is left None. *)
Theorem test_database_reports_environment_only
        (handle : option DbHandle) (getenv : pystr -> option pystr) :
  TestResponse.database_url (test_database handle getenv)
  = Some (if env_truthy getenv "DATABASE_URL" then "✅ Set" else "❌ Not Set")
  /\ TestResponse.database_name (test_database handle getenv)
     = Some (if env_truthy getenv "DATABASE_NAME" then "✅ Set" else "❌ Not Set")
  /\ TestResponse.backend (test_database handle getenv) = "✅ Running".
Proof.
  unfold test_database.
  destruct handle as [h|]; [destruct (list_collection_names h)|];
    repeat split; reflexivity.
Qed.

(** [test_database] never raises and never returns the initial status
    "Not Available": without a handle it reports "Available but not
    initialized", "Not Connected" and no collection; with a handle it
    reports "Connected" and either "Connected & Working" with the first ten
    collection names, or "Connected but Error" with the first 50 characters
    of the exception's message and no collection.  It never lists more than
    ten collections. *)
Theorem test_database_status_by_case
        (handle : option DbHandle) (getenv : pystr -> option pystr) :
  let r := test_database handle getenv in
  match handle with
  | None =>
      TestResponse.database r = "⚠️  Available but not initialized"
      /\ TestResponse.connection_status r = "Not Connected"
      /\ TestResponse.collections r = []
  | Some h =>
      TestResponse.connection_status r = "Connected"
      /\ match list_collection_names h with
         | inr names =>
             TestResponse.database r = "✅ Connected & Working"
             /\ TestResponse.collections r = firstn 10 names
         | inl e =>
             TestResponse.database r
             = "⚠️  Connected but Error: " ++ PyStr.slice_to 50 e
             /\ TestResponse.collections r = []
         end
  end
  /\ TestResponse.database r <> "❌ Not Available"
  /\ TestResponse.database r <> "✅ Available"
  /\ List.length (TestResponse.collections r) <= 10.
Proof.
  cbv zeta. unfold test_database.
  destruct handle as [h|]; [destruct (list_collection_names h) as [e | names]|].
  - simpl. repeat split; try discriminate. lia.
  - pose proof (firstn_le_length 10 names) as Hlen.
    remember (firstn 10 names) as top eqn:Htop.
    simpl. repeat split; try discriminate. exact Hlen.
  - simpl. repeat split; try discriminate. lia.
Qed.

End Diagnostics.
